(** * IFT-1004 Union: the ledger core, embedded and verified

    A shallow embedding of the Python modules [utilitaires], [configuration],
    [transactions] and [gestion_utilisateurs], followed by the properties of
    the ledger that the design document states about them.

    Representation choices, all taken from the source:

    - The two flat files are lists of lines, in file order.  A line of
      [utilisateurs.txt] is kept as the three fields that
      [ligne.strip().split(",")] yields, the balance as the integer that
      [int(solde)] reads; a line of [transactions.txt] as its five fields.
      Lines that do not split into that many fields make the source raise on
      unpacking and are outside the model; so are names that hold a comma
      or start with a blank, which are not read back as they were written.
    - Everything the user types arrives as an argument: the strings read by
      [input], the float produced by [float(input(...))], and the reading of
      the clock that [datetime.now().strftime] formats.
    - A Python [int] is an integer of [Z].  A Python [float] is an IEEE 754
      binary64 number, here a [spec_float] with precision 53 and maximal
      exponent 1024; the operations on floats are those of [SpecFloat].
    - An exception is the result [None]; the source catches none, and
      raises them before it writes to a file.
    - [hashlib.sha256] is a parameter of the registration.
    - Console output ([print], [afficher_tableau]) is not part of the state;
      [consulter_transactions] returns the rows it hands to the table
      printer. *)

From Stdlib Require Import ZArith List String Ascii Bool Lia.
From Stdlib Require Import SpecFloat DecimalString.
Import ListNotations.

Local Open Scope string_scope.
Local Open Scope Z_scope.

(** ** Python numbers *)

Module Python.

Definition prec : Z := 53.
Definition emax : Z := 1024.

(** A Python [float]. *)
Definition float : Type := spec_float.

(** A value that is either an [int] or a [float], as the arguments of
    [convertir_dollars_vers_centimes] are. *)
Inductive nombre : Type :=
| Entier (n : Z)
| Flottant (x : float).

(** [float(n)] for an integer [n]: rounded to nearest, ties to even. *)
Definition float_of_int (n : Z) : float := binary_normalize prec emax n 0 false.

(** [x * y] on floats. *)
Definition fmul (x y : float) : float := SFmul prec emax x y.

(** [x / y] on floats (used to write decimal literals such as [0.29]). *)
Definition fdiv (x y : float) : float := SFdiv prec emax x y.

(** [x <= 0] for a float [x] and the integer [0]; false on NaN. *)
Definition fle0 (x : float) : bool := SFleb x (S754_zero false).

(** [int(x)] for a float [x]: truncation toward zero; raises
    [OverflowError] on an infinity and [ValueError] on NaN ([None]). *)
Definition int_of_float (x : float) : option Z :=
  match x with
  | S754_zero _ => Some 0
  | S754_finite s m e => Some (cond_Zopp s (Z.shiftl (Zpos m) e))
  | S754_infinity _ => None
  | S754_nan => None
  end.

(** [divmod(a, b)] on integers: floored quotient and the remainder of the
    sign of [b]. *)
Definition divmod (a b : Z) : Z * Z := (a / b, a mod b).

End Python.

(** ** utilitaires.py *)

Module Utilitaires.
Import Python.

(** [int(montant_dollars * 100)]. *)
Definition convertir_dollars_vers_centimes (montant_dollars : nombre) : option Z :=
  match montant_dollars with
  | Entier n => Some (n * 100)
  | Flottant x => int_of_float (fmul x (float_of_int 100))
  end.

(** Decimal digits of a natural number, most significant first. *)
Definition chiffres (n : N) : list ascii :=
  list_ascii_of_string (NilZero.string_of_uint (N.to_uint n)).

(** Insert a comma every three digits, counting from the right: the [,]
    option of the format specification.  [l] is the digit list reversed,
    [k] the number of digits already emitted in the current group. *)
Fixpoint grouper_rev (l : list ascii) (k : nat) : list ascii :=
  match l with
  | [] => []
  | c :: l' =>
      match k with
      | 3%nat => ","%char :: c :: grouper_rev l' 1
      | _ => c :: grouper_rev l' (S k)
      end
  end.

Definition avec_virgules (n : N) : string :=
  string_of_list_ascii (rev (grouper_rev (rev (chiffres n)) 0)).

(** The sign and the comma-separated integer digits of an integer. *)
Definition entier_avec_virgules (v : Z) : string :=
  match v with
  | Zneg p => "-" ++ avec_virgules (Npos p)
  | _ => avec_virgules (Z.to_N v)
  end.

(** [f"{d:,.0f}"] for an integer [d].  The presentation type [f] first
    converts [d] to a float ([OverflowError], here [None], when [d] is too
    large), then prints the exact value of that float, which is an
    integer. *)
Definition format_virgule_0f (d : Z) : option string :=
  match int_of_float (float_of_int d) with
  | Some v => Some (entier_avec_virgules v)
  | None => None
  end.

(** [f"{d:,.2f}"] for an integer [d]: as above, and the two fractional
    digits of an integer-valued float are [00]. *)
Definition format_virgule_2f (d : Z) : option string :=
  match int_of_float (float_of_int d) with
  | Some v => Some (entier_avec_virgules v ++ ".00")
  | None => None
  end.

(** [formater_argent]:
    [dollars, centimes = divmod(montant_en_centimes, 100)] then
    [f"{dollars:,.2f} $" if centimes != 0 else f"{dollars:,.0f} $"]. *)
Definition formater_argent (montant_en_centimes : Z) : option string :=
  let '(dollars, centimes) := divmod montant_en_centimes 100 in
  option_map (fun s => s ++ " $")
    (if negb (centimes =? 0)
     then format_virgule_2f dollars
     else format_virgule_0f dollars).

(** [s.center(width)]: [s] itself when it is at least that long; otherwise
    blanks on both sides, the odd blank on the left when the width is odd
    and on the right when it is even. *)
Definition blancs (n : nat) : string :=
  string_of_list_ascii (repeat " "%char n).

Definition center (s : string) (width : nat) : string :=
  let n := String.length s in
  if (width <=? n)%nat then s
  else
    let marg := (width - n)%nat in
    let left :=
      (marg / 2 + if Nat.odd marg && Nat.odd width then 1 else 0)%nat in
    blancs left ++ s ++ blancs (marg - left).

(** [sep.join(l)]. *)
Fixpoint join (sep : string) (l : list string) : string :=
  match l with
  | [] => ""
  | [x] => x
  | x :: reste => x ++ sep ++ join sep reste
  end.

(** [max(l, key=len)]: the first of the longest strings of [l];
    [ValueError], here [None], on the empty list. *)
Definition max_len (l : list string) : option string :=
  match l with
  | [] => None
  | x :: reste =>
      Some (fold_left
              (fun meilleur y =>
                 if (String.length meilleur <? String.length y)%nat
                 then y else meilleur)
              reste x)
  end.

(** [[f(x) for x in l]] when [f] can raise: [None] as soon as one call
    does. *)
Fixpoint tous {A B : Type} (f : A -> option B) (l : list A)
  : option (list B) :=
  match l with
  | [] => Some []
  | x :: reste =>
      match f x with
      | Some y =>
          match tous f reste with
          | Some ys => Some (y :: ys)
          | None => None
          end
      | None => None
      end
  end.

(** [enumerate(l)]. *)
Definition enumerate {A : Type} (l : list A) : list (nat * A) :=
  combine (seq 0 (List.length l)) l.

(** One element of [largeurs]:
    [len(max([str(ligne[idx]) for ligne in lignes] + [en_tete], key=len))];
    [ligne[idx]] raises [IndexError] on a row that is too short. *)
Definition largeur (lignes : list (list string)) (idx : nat)
           (en_tete : string) : option nat :=
  match tous (fun ligne => nth_error ligne idx) lignes with
  | Some cellules =>
      option_map String.length (max_len (cellules ++ [en_tete]))
  | None => None
  end.

(** A line of the table: each item centred on the width of its column,
    [largeurs[idx]] raising [IndexError] past the last column. *)
Definition ligne_centree (largeurs : list nat) (ligne : list string)
  : option string :=
  option_map (join " | ")
    (tous (fun '(idx, item) =>
             option_map (center item) (nth_error largeurs idx))
          (enumerate ligne)).

(** [afficher_tableau]: the lines it prints, in order.  The cells are
    strings, as [consulter_transactions] passes them; a string counts one
    character per element.  [None] is an [IndexError], which leaves the
    table unfinished. *)
Definition afficher_tableau (lignes : list (list string))
           (en_tetes : list string) : option (list string) :=
  match tous (fun '(idx, en_tete) => largeur lignes idx en_tete)
             (enumerate en_tetes) with
  | None => None
  | Some largeurs =>
      match ligne_centree largeurs en_tetes with
      | None => None
      | Some en_tete_formate =>
          let ligne_separation :=
            "+-" ++ join "-+-"
                      (map (fun largeur =>
                              string_of_list_ascii (repeat "-"%char largeur))
                           largeurs)
                 ++ "-+" in
          match tous (ligne_centree largeurs) lignes with
          | None => None
          | Some lignes_formatees =>
              let en_tete_imprime := "| " ++ en_tete_formate ++ " |" in
              let imprimer := fun l : string => "| " ++ l ++ " |" in
              Some ([ligne_separation; en_tete_imprime; ligne_separation]
                      ++ map imprimer lignes_formatees
                      ++ [ligne_separation])%list
          end
      end
  end.

End Utilitaires.

(** ** configuration.py *)

Module Configuration.
Import Python Utilitaires.

(** [SOLDE_INITIAL = convertir_dollars_vers_centimes(1000)]. *)
Definition SOLDE_INITIAL : Z :=
  match convertir_dollars_vers_centimes (Entier 1000) with
  | Some c => c
  | None => 0
  end.

Definition NOM_UTILISATEUR_ADMIN : string := "ift-1004-union".

(** The upper bound of a tier: an integer or [math.inf]. *)
Inductive borne : Type :=
| Fini (z : Z)
| Infini.

(** One entry of [FRAIS_TRANSACTIONS]: [{"min": _, "max": _, "frais": _}]. *)
Record tranche : Type := Tranche {
  t_min : Z;
  t_max : borne;
  t_frais : Z
}.

Definition FRAIS_TRANSACTIONS : list tranche :=
  [ Tranche 0 (Fini 100) 5;
    Tranche 101 (Fini 500) 10;
    Tranche 501 (Fini 1000) 15;
    Tranche 1001 (Fini 5000) 20;
    Tranche 5001 Infini 25 ].

End Configuration.

(** ** transactions.py *)

Module Transactions.
Import Python Utilitaires Configuration.

(** A line of [utilisateurs.txt]: [utilisateur,mot_de_passe,solde]. *)
Record ligne_utilisateur : Type := LigneUtilisateur {
  utilisateur : string;
  mot_de_passe : string;
  solde : Z
}.

(** A line of [transactions.txt]:
    [expediteur,destinataire,montant,frais,date_heure]. *)
Record ligne_transaction : Type := LigneTransaction {
  expediteur : string;
  destinataire : string;
  montant : Z;
  frais : Z;
  date_heure : string
}.

(** The persisted state: the content of the two files. *)
Record fichiers : Type := Fichiers {
  FICHIER_UTILISATEURS : list ligne_utilisateur;
  FICHIER_TRANSACTIONS : list ligne_transaction
}.

(** Both files as [garantir_existence_fichier] creates them. *)
Definition fichiers_vides : fichiers := Fichiers [] [].

(** [tranche["min"] <= montant <= tranche["max"]]. *)
Definition dans_tranche (t : tranche) (montant : Z) : bool :=
  (t_min t <=? montant) &&
  match t_max t with
  | Fini m => montant <=? m
  | Infini => true
  end.

(** The loop of [calculer_frais] over a list of tiers.
    [int(montant * tranche["frais"] / 100)] is taken as the quotient of
    the two integers truncated toward zero.  Python rounds the quotient to
    a float before it truncates: the result is this one as long as the
    quotient is below 2^46 (some 7 * 10^13 cents of fee); a larger
    quotient is first rounded to 53 significant bits, and the division
    raises when the quotient exceeds the largest float.  No amount that
    [envoyer_argent] computes reaches that last range. *)
Fixpoint calculer_frais_parmi (tranches : list tranche) (montant : Z) : Z :=
  match tranches with
  | [] => 0
  | tranche :: reste =>
      if dans_tranche tranche montant
      then Z.quot (montant * t_frais tranche) 100
      else calculer_frais_parmi reste montant
  end.

Definition calculer_frais (montant : Z) : Z :=
  calculer_frais_parmi FRAIS_TRANSACTIONS montant.

(** [recuperer_solde]: the balance of the first line of the user, [0]
    when there is none. *)
Fixpoint recuperer_solde_dans (lignes : list ligne_utilisateur)
         (nom_utilisateur : string) : Z :=
  match lignes with
  | [] => 0
  | ligne :: reste =>
      if String.eqb (utilisateur ligne) nom_utilisateur
      then solde ligne
      else recuperer_solde_dans reste nom_utilisateur
  end.

Definition recuperer_solde (nom_utilisateur : string) (f : fichiers) : Z :=
  recuperer_solde_dans (FICHIER_UTILISATEURS f) nom_utilisateur.

(** One iteration of the loop of [ajouter_au_solde]: the line is appended
    to [lignes_utilisateurs], its balance increased when the name matches. *)
Definition ajouter_ligne (nom_utilisateur : string) (montant : Z)
           (lignes_utilisateurs : list ligne_utilisateur)
           (ligne : ligne_utilisateur) : list ligne_utilisateur :=
  let solde' :=
    if String.eqb (utilisateur ligne) nom_utilisateur
    then solde ligne + montant
    else solde ligne in
  lignes_utilisateurs ++
    [LigneUtilisateur (utilisateur ligne) (mot_de_passe ligne) solde'].

(** [ajouter_au_solde]: read every line, rewrite the whole file, return
    [True]. *)
Definition ajouter_au_solde (nom_utilisateur : string) (montant : Z)
           (f : fichiers) : bool * fichiers :=
  let lignes_utilisateurs :=
    fold_left (ajouter_ligne nom_utilisateur montant)
              (FICHIER_UTILISATEURS f) [] in
  (true, Fichiers lignes_utilisateurs (FICHIER_TRANSACTIONS f)).

(** [enregistrer_transaction]: append one line to the log.  [date_heure]
    is the formatted reading of the clock; the default [frais=0] is passed
    explicitly by the caller. *)
Definition enregistrer_transaction (expediteur destinataire : string)
           (montant frais : Z) (date_heure : string) (f : fichiers) : fichiers :=
  Fichiers (FICHIER_UTILISATEURS f)
           (FICHIER_TRANSACTIONS f ++
              [LigneTransaction expediteur destinataire montant frais date_heure]).

(** [envoyer_argent].  [destinataire] and [montant_dollars] are the two
    values read from the console.  [None] is the exception that
    [int(...)] raises inside [convertir_dollars_vers_centimes] on an
    infinity or NaN; it is raised before any file is written. *)
Definition envoyer_argent (nom_utilisateur destinataire : string)
           (montant_dollars : float) (date_heure : string)
           (f : fichiers) : option (bool * fichiers) :=
  if String.eqb destinataire nom_utilisateur then Some (false, f)
  else if fle0 montant_dollars then Some (false, f)
  else
    let solde_exp := recuperer_solde nom_utilisateur f in
    match convertir_dollars_vers_centimes (Flottant montant_dollars) with
    | None => None
    | Some montant_centimes =>
        let frais := calculer_frais montant_centimes in
        if solde_exp <? montant_centimes + frais then Some (false, f)
        else
          let solde_dest := recuperer_solde destinataire f in
          let '(ok1, f1) :=
            ajouter_au_solde nom_utilisateur (- montant_centimes - frais) f in
          if negb ok1 then Some (false, f1)
          else
            let '(ok2, f2) := ajouter_au_solde destinataire montant_centimes f1 in
            if negb ok2 then Some (false, f2)
            else
              Some (true,
                    enregistrer_transaction nom_utilisateur destinataire
                      montant_centimes frais date_heure f2)
    end.

(** The row of the table built by [consulter_transactions] for one line
    of the log; [None] when [formater_argent] raises. *)
Definition ligne_tableau (l : ligne_transaction) : option (list string) :=
  match formater_argent (montant l), formater_argent (frais l) with
  | Some montant_formatte, Some frais_formatte =>
      Some [date_heure l; expediteur l; destinataire l;
            montant_formatte; frais_formatte]
  | _, _ => None
  end.

(** The test of the loop of [consulter_transactions]. *)
Definition concerne (nom_utilisateur : string) (l : ligne_transaction) : bool :=
  String.eqb (expediteur l) nom_utilisateur
  || String.eqb (destinataire l) nom_utilisateur.

(** The loop of [consulter_transactions]: [transactions_utilisateur] grows
    by one row for each line that involves the user. *)
Fixpoint consulter_boucle (nom_utilisateur : string)
         (lignes : list ligne_transaction)
         (transactions_utilisateur : list (list string))
  : option (list (list string)) :=
  match lignes with
  | [] => Some transactions_utilisateur
  | ligne :: reste =>
      if concerne nom_utilisateur ligne
      then match ligne_tableau ligne with
           | Some rangee =>
               consulter_boucle nom_utilisateur reste
                                (transactions_utilisateur ++ [rangee])
           | None => None
           end
      else consulter_boucle nom_utilisateur reste transactions_utilisateur
  end.

(** [consulter_transactions]: the rows handed to [afficher_tableau], in
    the order of the file (the empty list when the function prints that
    no transaction was found). *)
Definition consulter_transactions (nom_utilisateur : string) (f : fichiers)
  : option (list (list string)) :=
  consulter_boucle nom_utilisateur (FICHIER_TRANSACTIONS f) [].

(** [consulter_solde]: the line it prints,
    [f"Solde actuel de {nom_utilisateur} : {solde_formatte}"]; [None] when
    [formater_argent] raises. *)
Definition consulter_solde (nom_utilisateur : string) (f : fichiers)
  : option string :=
  let solde := recuperer_solde nom_utilisateur f in
  match formater_argent solde with
  | Some solde_formatte =>
      Some ("Solde actuel de " ++ nom_utilisateur ++ " : " ++ solde_formatte)
  | None => None
  end.

End Transactions.

(** ** gestion_utilisateurs.py *)

Module GestionUtilisateurs.
Import Python Utilitaires Configuration Transactions.

(** [utilisateur_existe]: some line of the file carries the name. *)
Fixpoint utilisateur_existe_dans (lignes : list ligne_utilisateur)
         (nom_utilisateur : string) : bool :=
  match lignes with
  | [] => false
  | ligne :: reste =>
      if String.eqb (utilisateur ligne) nom_utilisateur
      then true
      else utilisateur_existe_dans reste nom_utilisateur
  end.

Definition utilisateur_existe (nom_utilisateur : string) (f : fichiers) : bool :=
  utilisateur_existe_dans (FICHIER_UTILISATEURS f) nom_utilisateur.

(** [not s] for a string [s]. *)
Definition est_vide (s : string) : bool :=
  match s with
  | EmptyString => true
  | String _ _ => false
  end.

Section Hachage.

(** [hacher_mot_de_passe]: the SHA-256 hexadecimal digest of
    [hashlib]. *)
Variable hacher_mot_de_passe : string -> string.

(** [enregistrer_utilisateur], on the two strings read from the
    console. *)
Definition enregistrer_utilisateur (nom_utilisateur mot_de_passe : string)
           (date_heure : string) (f : fichiers) : bool * fichiers :=
  if est_vide nom_utilisateur || est_vide mot_de_passe then (false, f)
  else if utilisateur_existe nom_utilisateur f then (false, f)
  else
    let hachage_mot_de_passe := hacher_mot_de_passe mot_de_passe in
    let nouveau_utilisateur :=
      LigneUtilisateur nom_utilisateur hachage_mot_de_passe SOLDE_INITIAL in
    let f1 := Fichiers (FICHIER_UTILISATEURS f ++ [nouveau_utilisateur])
                       (FICHIER_TRANSACTIONS f) in
    (true,
     enregistrer_transaction NOM_UTILISATEUR_ADMIN nom_utilisateur
       SOLDE_INITIAL 0 date_heure f1).

(** The loop of [connecter_utilisateur]: the first line whose name is the
    one typed and whose stored digest is the digest of the password typed
    ends the search.  [secrets.compare_digest] is the equality of the two
    digests, which are strings of hexadecimal digits; as the right operand
    of [and], it is only evaluated on the lines that carry the name. *)
Fixpoint connecter_dans (lignes : list ligne_utilisateur)
         (nom_utilisateur mot_de_passe : string) : option string :=
  match lignes with
  | [] => None
  | ligne :: reste =>
      if String.eqb (utilisateur ligne) nom_utilisateur
         && String.eqb (hacher_mot_de_passe mot_de_passe)
                       (Transactions.mot_de_passe ligne)
      then Some nom_utilisateur
      else connecter_dans reste nom_utilisateur mot_de_passe
  end.

(** [connecter_utilisateur], on the two strings read from the console:
    the name when the connection succeeds, [None] otherwise. *)
Definition connecter_utilisateur (nom_utilisateur mot_de_passe : string)
           (f : fichiers) : option string :=
  connecter_dans (FICHIER_UTILISATEURS f) nom_utilisateur mot_de_passe.

End Hachage.

End GestionUtilisateurs.

(** * Vocabulary of the properties *)

Import Python Utilitaires Configuration Transactions GestionUtilisateurs.

(** What the loop of [ajouter_au_solde] writes back for one line. *)
Definition ligne_ajustee (nom : string) (d : Z) (l : ligne_utilisateur)
  : ligne_utilisateur :=
  LigneUtilisateur (utilisateur l) (mot_de_passe l)
    (if String.eqb (utilisateur l) nom then solde l + d else solde l).


(** One successful operation of the ledger: a registration or a transfer
    that returned [True]. *)
Inductive etape (hacher : string -> string) : fichiers -> fichiers -> Prop :=
| etape_inscription nom mdp quand f f' :
    enregistrer_utilisateur hacher nom mdp quand f = (true, f') ->
    etape hacher f f'
| etape_transfert nom dest x quand f f' :
    envoyer_argent nom dest x quand f = Some (true, f') ->
    etape hacher f f'.





(** The rows of a list of records, in order; [None] as soon as one of them
    cannot be formatted. *)
Fixpoint rangees (ts : list ligne_transaction) : option (list (list string)) :=
  match ts with
  | [] => Some []
  | t :: reste =>
      match ligne_tableau t, rangees reste with
      | Some r, Some rs => Some (r :: rs)
      | _, _ => None
      end
  end.

(** Two decimal digits of a number below one hundred. *)
Definition deux_chiffres (c : Z) : string :=
  string_of_list_ascii
    (chiffres (Z.to_N (c / 10)) ++ chiffres (Z.to_N (c mod 10)))%list.

(** The rendering that the documentation of [formater_argent] describes for
    a non-negative number of cents: the dollars with comma separators, a
    decimal point, the two digits of the cents, the dollar suffix. *)
Definition formater_argent_spec (montant_en_centimes : Z) : string :=
  entier_avec_virgules (montant_en_centimes / 100) ++ "."
    ++ deux_chiffres (montant_en_centimes mod 100) ++ " $".

(** A stand-in for the SHA-256 digest in closed examples: no operation of
    the ledger depends on the value of the digest. *)
Definition hachage_exemple (mot_de_passe : string) : string :=
  "sha256:" ++ mot_de_passe.

(** The result of an operation that returned [True], the state unchanged
    otherwise: used to chain the operations of a scenario. *)
Definition puis (r : option (bool * fichiers)) (f : fichiers) : fichiers :=
  match r with
  | Some (true, f') => f'
  | _ => f
  end.

(** A scenario of five operations, each of which returns [True]:
    a user registers under the administrative name, carol registers, carol
    sends 500 dollars to the former, who sends 1000 dollars to bob, a name
    that is not registered; then bob registers. *)
Definition scenario_1 : fichiers :=
  puis (Some (enregistrer_utilisateur hachage_exemple
                "ift-1004-union" "secret" "2024-03-01 09:00:00"
                fichiers_vides))
       fichiers_vides.

Definition scenario_2 : fichiers :=
  puis (Some (enregistrer_utilisateur hachage_exemple
                "carol" "motdepasse" "2024-03-01 09:05:00" scenario_1))
       scenario_1.

Definition scenario_3 : fichiers :=
  puis (envoyer_argent "carol" "ift-1004-union" (float_of_int 500)
          "2024-03-01 09:10:00" scenario_2)
       scenario_2.

Definition scenario_4 : fichiers :=
  puis (envoyer_argent "ift-1004-union" "bob" (float_of_int 1000)
          "2024-03-01 09:15:00" scenario_3)
       scenario_3.

Definition scenario_5 : fichiers :=
  puis (Some (enregistrer_utilisateur hachage_exemple
                "bob" "pw123" "2024-03-01 09:20:00" scenario_4))
       scenario_4.

(** An accounts file with one user, alice, holding the initial balance. *)
Definition alice_seule : fichiers :=
  Fichiers
    [LigneUtilisateur "alice" (hachage_exemple "pw123") 100000]
    [LigneTransaction "ift-1004-union" "alice" 100000 0 "2024-03-01 09:00:00"].

(** The same with a second user, bob. *)
Definition alice_et_bob : fichiers :=
  Fichiers
    [LigneUtilisateur "alice" (hachage_exemple "pw123") 100000;
     LigneUtilisateur "bob" (hachage_exemple "azerty") 100000]
    [LigneTransaction "ift-1004-union" "alice" 100000 0 "2024-03-01 09:00:00";
     LigneTransaction "ift-1004-union" "bob" 100000 0 "2024-03-01 09:01:00"].


(** An amount of cents that [formater_argent] can render: its dollars
    fit in a float. *)
Definition affichable (n : Z) : Prop := - 2 ^ 1029 < n < 2 ^ 1029.



(** The sum of the balances of the accounts file. *)
Definition total_soldes (f : fichiers) : Z :=
  fold_right (fun l s => solde l + s) 0 (FICHIER_UTILISATEURS f).

(** The name and the stored digest of each line of the accounts file. *)
Definition identifiants (f : fichiers) : list (string * string) :=
  map (fun l => (utilisateur l, mot_de_passe l)) (FICHIER_UTILISATEURS f).

(** One thousandth of a dollar, as [float("0.001")] reads it. *)
Definition un_millieme : float := fdiv (float_of_int 1) (float_of_int 1000).

(** The width of a table whose columns have the widths [ws]: four
    characters, the widths, and three characters between two columns. *)
Definition largeur_tableau (ws : list nat) : nat :=
  4 + list_sum ws + 3 * (List.length ws - 1).

(** A table of two rows of three cells, and its headers. *)
Definition rangees_exemple : list (list string) :=
  [["2024-03-01 10:00:00"; "alice"; "bob"];
   ["2024-03-01 10:05:00"; "bob"; "carol"]].

Definition en_tetes_exemple : list string :=
  ["Date/Heure"; "De"; "Destinataire"].

(** * Properties *)

(** ** The accounts file under [ajouter_au_solde] *)

Section Comptes.

Implicit Types (nom autre : string) (d : Z) (l : ligne_utilisateur)
         (lignes : list ligne_utilisateur) (f : fichiers).

Lemma ajouter_ligne_fold nom d lignes acc :
  fold_left (ajouter_ligne nom d) lignes acc
  = (acc ++ map (ligne_ajustee nom d) lignes)%list.
Proof.
  revert acc; induction lignes as [|l lignes IH]; intros acc; simpl.
  - now rewrite app_nil_r.
  - rewrite IH. unfold ajouter_ligne at 1. now rewrite <- app_assoc.
Qed.

Lemma ajouter_au_solde_map nom d f :
  ajouter_au_solde nom d f
  = (true, Fichiers (map (ligne_ajustee nom d) (FICHIER_UTILISATEURS f))
                    (FICHIER_TRANSACTIONS f)).
Proof.
  unfold ajouter_au_solde. now rewrite ajouter_ligne_fold.
Qed.

Lemma ligne_ajustee_autre nom d l :
  String.eqb (utilisateur l) nom = false -> ligne_ajustee nom d l = l.
Proof.
  intros H. unfold ligne_ajustee. rewrite H. now destruct l.
Qed.

Lemma map_ajustee_absent nom d lignes :
  utilisateur_existe_dans lignes nom = false ->
  map (ligne_ajustee nom d) lignes = lignes.
Proof.
  induction lignes as [|l lignes IH]; simpl; [reflexivity|].
  destruct (String.eqb (utilisateur l) nom) eqn:E; [discriminate|].
  intros H. now rewrite ligne_ajustee_autre, IH.
Qed.

Lemma existe_map_ajustee nom d autre lignes :
  utilisateur_existe_dans (map (ligne_ajustee nom d) lignes) autre
  = utilisateur_existe_dans lignes autre.
Proof.
  induction lignes as [|l lignes IH]; simpl; [reflexivity|].
  now rewrite IH.
Qed.

Lemma solde_map_ajustee_meme nom d lignes :
  utilisateur_existe_dans lignes nom = true ->
  recuperer_solde_dans (map (ligne_ajustee nom d) lignes) nom
  = recuperer_solde_dans lignes nom + d.
Proof.
  induction lignes as [|l lignes IH]; simpl; [discriminate|].
  destruct (String.eqb (utilisateur l) nom) eqn:E; auto.
Qed.

Lemma solde_map_ajustee_autre nom d autre lignes :
  String.eqb autre nom = false ->
  recuperer_solde_dans (map (ligne_ajustee nom d) lignes) autre
  = recuperer_solde_dans lignes autre.
Proof.
  intros Hne. induction lignes as [|l lignes IH]; simpl; [reflexivity|].
  destruct (String.eqb (utilisateur l) autre) eqn:E; [|exact IH].
  apply String.eqb_eq in E. rewrite E, Hne. reflexivity.
Qed.

Lemma solde_absent nom lignes :
  utilisateur_existe_dans lignes nom = false ->
  recuperer_solde_dans lignes nom = 0.
Proof.
  induction lignes as [|l lignes IH]; simpl; [reflexivity|].
  destruct (String.eqb (utilisateur l) nom); [discriminate|exact IH].
Qed.

End Comptes.

(** ** The amount read from the console *)

Section Montant.

(** Rounding keeps the sign it is given: the result is a zero, a finite
    number or an infinity of that sign, or NaN. *)
Lemma binary_round_aux_signe sx mx ex lx :
  match binary_round_aux prec emax sx mx ex lx with
  | S754_zero s => s = sx
  | S754_infinity s => s = sx
  | S754_finite s _ _ => s = sx
  | S754_nan => True
  end.
Proof.
  unfold binary_round_aux.
  destruct (shr_fexp prec emax mx ex lx) as [mrs' e'].
  destruct (shr_fexp prec emax _ e' loc_Exact) as [mrs'' e''].
  destruct (shr_m mrs''); auto.
  destruct (e'' <=? emax - prec); auto.
Qed.

(** A float that passes the test [montant_dollars <= 0] converts to a
    non-negative number of cents, when it converts at all. *)
Lemma convertir_positif x c :
  fle0 x = false ->
  convertir_dollars_vers_centimes (Flottant x) = Some c ->
  0 <= c.
Proof.
  unfold convertir_dollars_vers_centimes, fle0, fmul.
  change (float_of_int 100) with (S754_finite false 7036874417766400 (-46)).
  destruct x as [s|s| |s m e]; simpl; intros Hle Hc; try discriminate.
  destruct s; [discriminate|].
  pose proof (binary_round_aux_signe false
                (Z.pos (m * 7036874417766400)) (e + -46) loc_Exact) as H.
  destruct (binary_round_aux _ _ _ _ _ _) as [s'|s'| |s' m' e'];
    simpl in Hc; try discriminate.
  - injection Hc as <-. lia.
  - subst s'. injection Hc as <-. simpl. apply Z.shiftl_nonneg. lia.
Qed.

End Montant.

(** ** Rounding to a float stays in range *)

Section Arrondi.

Lemma digits2_pos_size p : digits2_pos p = Pos.size p.
Proof. induction p; simpl; congruence. Qed.

Lemma Zdigits2_nonneg m : 0 <= Zdigits2 m.
Proof. destruct m; simpl; lia. Qed.

Lemma Zdigits2_pos_bounds p :
  2 ^ (Zdigits2 (Zpos p) - 1) <= Zpos p < 2 ^ Zdigits2 (Zpos p).
Proof.
  change (Zdigits2 (Z.pos p)) with (Z.pos (digits2_pos p)).
  rewrite digits2_pos_size.
  pose proof (Pos.size_gt p) as Hgt. pose proof (Pos.size_le p) as Hle.
  apply Pos2Z.pos_lt_pos in Hgt. apply Pos2Z.pos_le_pos in Hle.
  rewrite Pos2Z.inj_pow in Hgt, Hle.
  change (Z.pos p~0) with (2 * Z.pos p) in Hle.
  split; [|exact Hgt].
  assert (E : 2 ^ Z.pos (Pos.size p) = 2 * 2 ^ (Z.pos (Pos.size p) - 1)).
  { rewrite <- Z.pow_succ_r by lia. f_equal. lia. }
  lia.
Qed.

(** A non-negative integer below [2^k] has at most [k] digits. *)
Lemma Zdigits2_le m k : 0 <= m -> 0 <= k -> m < 2 ^ k -> Zdigits2 m <= k.
Proof.
  intros Hm Hk H. destruct m as [|p|p]; [simpl; lia| |lia].
  destruct (Zdigits2_pos_bounds p) as [Hlo _].
  destruct (Z_le_gt_dec (Zdigits2 (Z.pos p)) k) as [|Hgt]; [assumption|].
  exfalso. assert (2 ^ k <= 2 ^ (Zdigits2 (Z.pos p) - 1)).
  { apply Z.pow_le_mono_r; lia. }
  lia.
Qed.

Lemma Zdigits2_lt_pow m : 0 <= m -> m < 2 ^ Zdigits2 m.
Proof.
  intros Hm. destruct m as [|p|p]; [simpl; lia| |lia].
  apply Zdigits2_pos_bounds.
Qed.

Lemma shr_1_m r : 0 <= shr_m r -> shr_m (shr_1 r) = shr_m r / 2.
Proof.
  destruct r as [m rb sb]. simpl. intros Hm.
  destruct m as [|[p|p|]|p]; simpl; try reflexivity; try lia.
  - rewrite Pos2Z.inj_xI. apply Z.div_unique with 1; lia.
  - rewrite Pos2Z.inj_xO. apply Z.div_unique with 0; lia.
Qed.

Lemma shr_m_iter p r :
  0 <= shr_m r -> shr_m (iter_pos shr_1 p r) = shr_m r / 2 ^ Zpos p.
Proof.
  revert r. induction p as [p IH|p IH|]; intros r Hr; simpl iter_pos.
  - assert (H1 : 0 <= shr_m (shr_1 r)).
    { rewrite shr_1_m by assumption. apply Z.div_pos; lia. }
    assert (H2 : 0 <= shr_m (iter_pos shr_1 p (shr_1 r))).
    { rewrite IH by assumption. apply Z.div_pos; lia. }
    assert (E : 2 ^ Z.pos p~1 = 2 * (2 ^ Z.pos p * 2 ^ Z.pos p)).
    { replace (Z.pos p~1) with (Z.succ (Z.pos p + Z.pos p)) by lia.
      rewrite Z.pow_succ_r, Z.pow_add_r by lia. reflexivity. }
    rewrite IH, IH, shr_1_m by assumption.
    rewrite !Z.div_div by lia. now rewrite E.
  - assert (H2 : 0 <= shr_m (iter_pos shr_1 p r)).
    { rewrite IH by assumption. apply Z.div_pos; lia. }
    assert (E : 2 ^ Z.pos p~0 = 2 ^ Z.pos p * 2 ^ Z.pos p).
    { replace (Z.pos p~0) with (Z.pos p + Z.pos p) by lia.
      rewrite Z.pow_add_r by lia. reflexivity. }
    rewrite IH, IH by assumption.
    rewrite !Z.div_div by lia. now rewrite E.
  - rewrite shr_1_m by assumption. reflexivity.
Qed.

Lemma shr_m_of_loc m l : shr_m (shr_record_of_loc m l) = m.
Proof. destruct l as [|[]]; reflexivity. Qed.

(** The shift made by [shr_fexp]: the exponent rises to [fexp] of the
    magnitude when it is below, and the mantissa loses that many bits. *)
Lemma shr_fexp_spec m e l :
  0 <= m ->
  snd (shr_fexp prec emax m e l) = Z.max e (fexp prec emax (Zdigits2 m + e))
  /\ shr_m (fst (shr_fexp prec emax m e l))
     = m / 2 ^ (snd (shr_fexp prec emax m e l) - e).
Proof.
  intros Hm. unfold shr_fexp, shr.
  destruct (fexp prec emax (Zdigits2 m + e) - e) as [|p|p] eqn:En; simpl.
  - rewrite shr_m_of_loc, Z.sub_diag, Z.div_1_r. split; lia.
  - rewrite shr_m_iter by (rewrite shr_m_of_loc; assumption).
    rewrite shr_m_of_loc. split; [lia|]. f_equal. f_equal. lia.
  - rewrite shr_m_of_loc, Z.sub_diag, Z.div_1_r. split; lia.
Qed.

Lemma round_nearest_even_bounds m l :
  m <= round_nearest_even m l <= m + 1.
Proof.
  destruct l as [|[]]; simpl; try lia.
  destruct (Z.even m); lia.
Qed.

Lemma fexp_ge k : k - 53 <= fexp prec emax k.
Proof. unfold fexp, emin, prec, emax. lia. Qed.

Lemma fexp_le k : k <= 1024 -> fexp prec emax k <= 971.
Proof. unfold fexp, emin, prec, emax. lia. Qed.

(** A finite result of rounding has a mantissa of at most 53 bits and an
    exponent of at most 971. *)
Lemma binary_round_aux_borne sx mx ex lx s m e :
  0 <= mx ->
  binary_round_aux prec emax sx mx ex lx = S754_finite s m e ->
  Zpos m < 2 ^ 53 /\ e <= 971.
Proof.
  intros Hmx. unfold binary_round_aux.
  destruct (shr_fexp_spec mx ex lx Hmx) as [He1 Hm1].
  destruct (shr_fexp prec emax mx ex lx) as [r1 e1]. simpl in He1, Hm1.
  set (m1 := round_nearest_even (shr_m r1) (loc_of_shr_record r1)).
  assert (Hm1' : 0 <= m1).
  { pose proof (round_nearest_even_bounds (shr_m r1) (loc_of_shr_record r1)).
    assert (0 <= shr_m r1) by (rewrite Hm1; apply Z.div_pos; lia).
    unfold m1. lia. }
  destruct (shr_fexp_spec m1 e1 loc_Exact Hm1') as [He2 Hm2].
  destruct (shr_fexp prec emax m1 e1 loc_Exact) as [r2 e2].
  simpl in He2, Hm2.
  destruct (shr_m r2) as [|m0|m0] eqn:Er2; try discriminate.
  destruct (e2 <=? emax - prec) eqn:Ee; [|discriminate].
  intros [= _ <- <-]. apply Z.leb_le in Ee. split; [|exact Ee].
  rewrite Hm2.
  pose proof (fexp_ge (Zdigits2 m1 + e1)) as Hf.
  pose proof (Zdigits2_nonneg m1) as Hd.
  apply Z.div_lt_upper_bound; [lia|].
  rewrite <- Z.pow_add_r by lia.
  apply Z.lt_le_trans with (2 ^ Zdigits2 m1);
    [apply Zdigits2_lt_pow; assumption|].
  apply Z.pow_le_mono_r; lia.
Qed.

(** Rounding a magnitude of at most 1023 bits, given with an exponent no
    larger than the one of its format, overflows neither to an infinity
    nor to NaN. *)
Lemma binary_round_aux_fini sx mx ex lx :
  0 <= mx ->
  ex <= fexp prec emax (Zdigits2 mx + ex) ->
  Zdigits2 mx + ex <= 1023 ->
  match binary_round_aux prec emax sx mx ex lx with
  | S754_infinity _ | S754_nan => False
  | _ => True
  end.
Proof.
  intros Hmx Hex HD. unfold binary_round_aux.
  destruct (shr_fexp_spec mx ex lx Hmx) as [He1 Hm1].
  destruct (shr_fexp prec emax mx ex lx) as [r1 e1]. simpl in He1, Hm1.
  set (m1 := round_nearest_even (shr_m r1) (loc_of_shr_record r1)).
  pose proof (round_nearest_even_bounds (shr_m r1) (loc_of_shr_record r1))
    as Hr. fold m1 in Hr.
  assert (H0 : 0 <= shr_m r1) by (rewrite Hm1; apply Z.div_pos; lia).
  assert (Hm1' : 0 <= m1) by lia.
  destruct (shr_fexp_spec m1 e1 loc_Exact Hm1') as [He2 Hm2].
  destruct (shr_fexp prec emax m1 e1 loc_Exact) as [r2 e2].
  simpl in He2, Hm2.
  assert (He1' : e1 = fexp prec emax (Zdigits2 mx + ex)) by lia.
  assert (He1'' : e1 <= 970).
  { rewrite He1'. unfold fexp, emin, prec, emax. lia. }
  assert (Hq : shr_m r1 < 2 ^ (1023 - e1)).
  { rewrite Hm1. apply Z.div_lt_upper_bound; [lia|].
    rewrite <- Z.pow_add_r by lia.
    apply Z.lt_le_trans with (2 ^ Zdigits2 mx);
      [apply Zdigits2_lt_pow; assumption|].
    apply Z.pow_le_mono_r; lia. }
  assert (Hd1 : Zdigits2 m1 <= 1024 - e1).
  { apply Zdigits2_le; try lia.
    replace (1024 - e1) with (Z.succ (1023 - e1)) by lia.
    rewrite Z.pow_succ_r by lia. lia. }
  assert (He2' : e2 <= 971).
  { pose proof (fexp_le (Zdigits2 m1 + e1)). lia. }
  assert (H2 : 0 <= shr_m r2) by (rewrite Hm2; apply Z.div_pos; lia).
  destruct (shr_m r2) as [|m0|m0]; try exact I; [|lia].
  apply Z.leb_le in He2'. unfold emax, prec. simpl. now rewrite He2'.
Qed.

Lemma digits2_pos_iter_xO m d :
  Zpos (digits2_pos (Pos.iter xO m d)) = Zpos (digits2_pos m) + Zpos d.
Proof.
  induction d as [|d IH] using Pos.peano_ind.
  - simpl. lia.
  - rewrite Pos.iter_succ. simpl digits2_pos. lia.
Qed.

Lemma binary_round_fini s m :
  Zpos m < 2 ^ 1023 ->
  match binary_round prec emax s m 0 with
  | S754_infinity _ | S754_nan => False
  | _ => True
  end.
Proof.
  intros Hm. unfold binary_round, shl_align.
  assert (HD : Zdigits2 (Zpos m) <= 1023) by (apply Zdigits2_le; lia).
  change (Zdigits2 (Z.pos m)) with (Z.pos (digits2_pos m)) in HD.
  destruct (fexp prec emax (Z.pos (digits2_pos m) + 0) - 0) as [|p|p] eqn:E.
  - apply binary_round_aux_fini; simpl Zdigits2; lia.
  - apply binary_round_aux_fini; simpl Zdigits2; lia.
  - apply binary_round_aux_fini; simpl Zdigits2;
      rewrite ?digits2_pos_iter_xO; try lia.
    replace (Z.pos (digits2_pos m) + Z.pos p
             + fexp prec emax (Z.pos (digits2_pos m) + 0))
      with (Z.pos (digits2_pos m) + 0) by lia.
    lia.
Qed.

Lemma float_of_int_fini d :
  - 2 ^ 1023 < d < 2 ^ 1023 ->
  exists v, int_of_float (float_of_int d) = Some v.
Proof.
  intros Hd. unfold float_of_int, binary_normalize.
  destruct d as [|m|m].
  - now exists 0.
  - pose proof (binary_round_fini false m) as H.
    destruct (binary_round prec emax false m 0); simpl; eauto;
      exfalso; apply H; lia.
  - pose proof (binary_round_fini true m) as H.
    destruct (binary_round prec emax true m 0); simpl; eauto;
      exfalso; apply H; lia.
Qed.

(** [formater_argent] returns on every amount below [2^1029] cents in
    absolute value. *)
Lemma formater_argent_defini n :
  affichable n -> exists s, formater_argent n = Some s.
Proof.
  unfold affichable. intros Hn. unfold formater_argent, divmod.
  assert (Hq : - 2 ^ 1023 < n / 100 < 2 ^ 1023).
  { assert (E : 2 ^ 1029 = 64 * 2 ^ 1023).
    { change 1029 with (6 + 1023). now rewrite Z.pow_add_r by lia. }
    assert (0 < 2 ^ 1023) by (apply Z.pow_pos_nonneg; lia).
    split.
    - apply Z.lt_le_trans with (- 2 ^ 1023 + 1); [lia|].
      apply Z.div_le_lower_bound; lia.
    - apply Z.div_lt_upper_bound; lia. }
  destruct (float_of_int_fini _ Hq) as [v Hv].
  unfold format_virgule_2f, format_virgule_0f. rewrite Hv.
  destruct (negb (n mod 100 =? 0)); simpl; eauto.
Qed.

(** The number of cents that a float converts to is below the largest
    float in absolute value. *)
Lemma convertir_borne x c :
  convertir_dollars_vers_centimes (Flottant x) = Some c ->
  - 2 ^ 1024 < c < 2 ^ 1024.
Proof.
  unfold convertir_dollars_vers_centimes, fmul.
  change (float_of_int 100) with (S754_finite false 7036874417766400 (-46)).
  assert (P : 0 < 2 ^ 1024) by (apply Z.pow_pos_nonneg; lia).
  destruct x as [s|s| |s m e]; simpl; try discriminate.
  - intros [= <-]. lia.
  - destruct (binary_round_aux _ _ _ _ _ _) as [s'|s'| |s' m' e'] eqn:E;
      simpl; try discriminate.
    + intros [= <-]. lia.
    + intros [= <-].
      apply binary_round_aux_borne in E as [Hm He]; [|lia].
      assert (B : 0 <= Z.shiftl (Z.pos m') e' < 2 ^ 1024).
      { split; [apply Z.shiftl_nonneg; lia|].
        destruct (Z_le_gt_dec 0 e') as [He0|He0].
        - rewrite Z.shiftl_mul_pow2 by lia.
          apply Z.lt_le_trans with (2 ^ 53 * 2 ^ e').
          + apply Z.mul_lt_mono_pos_r; [apply Z.pow_pos_nonneg; lia|lia].
          + rewrite <- Z.pow_add_r by lia. apply Z.pow_le_mono_r; lia.
        - rewrite Z.shiftl_div_pow2 by lia.
          apply Z.le_lt_trans with (Z.pos m').
          + apply Z.div_le_upper_bound; [apply Z.pow_pos_nonneg; lia|].
            assert (0 < 2 ^ (- e')) by (apply Z.pow_pos_nonneg; lia). nia.
          + apply Z.lt_le_trans with (2 ^ 53); [lia|].
            apply Z.pow_le_mono_r; lia. }
      destruct s'; simpl; lia.
Qed.

End Arrondi.

(** ** Transfers *)

Section Transferts.

Implicit Types (nom dest : string) (x : float) (quand : string)
         (f : fichiers) (c : Z).

(** What a transfer that returns [True] has checked and written. *)
Lemma envoyer_argent_reussi nom dest x quand f f' :
  envoyer_argent nom dest x quand f = Some (true, f') ->
  exists c,
    String.eqb dest nom = false
    /\ fle0 x = false
    /\ convertir_dollars_vers_centimes (Flottant x) = Some c
    /\ c + calculer_frais c <= recuperer_solde nom f
    /\ f' = Fichiers
              (map (ligne_ajustee dest c)
                 (map (ligne_ajustee nom (- c - calculer_frais c))
                    (FICHIER_UTILISATEURS f)))
              (FICHIER_TRANSACTIONS f ++
                 [LigneTransaction nom dest c (calculer_frais c) quand]).
Proof.
  unfold envoyer_argent.
  destruct (String.eqb dest nom) eqn:Hd; [discriminate|].
  destruct (fle0 x) eqn:Hx; [discriminate|].
  destruct (convertir_dollars_vers_centimes (Flottant x)) as [c|] eqn:Hc;
    [|discriminate].
  destruct (recuperer_solde nom f <? c + calculer_frais c) eqn:Hs;
    [discriminate|].
  rewrite !ajouter_au_solde_map. simpl.
  intros [= <-]. exists c. repeat split; auto.
  apply Z.ltb_ge in Hs. exact Hs.
Qed.

(** C1.  When the sender and the receiver both have a line in the accounts
    file and [envoyer_argent] returns [True], the amount typed passed the
    positivity test and converted to some number of cents [c]; the stored
    balance of the sender is then its former balance minus [c] minus
    [calculer_frais c], and the stored balance of the receiver its former
    balance plus [c]. *)
Theorem transfert_reussi_soldes nom dest x quand f f' :
  utilisateur_existe nom f = true ->
  utilisateur_existe dest f = true ->
  envoyer_argent nom dest x quand f = Some (true, f') ->
  exists c,
    fle0 x = false
    /\ convertir_dollars_vers_centimes (Flottant x) = Some c
    /\ recuperer_solde nom f'
       = recuperer_solde nom f - c - calculer_frais c
    /\ recuperer_solde dest f' = recuperer_solde dest f + c.
Proof.
  intros Hnom Hdest Hok.
  destruct (envoyer_argent_reussi _ _ _ _ _ _ Hok)
    as (c & Hne & Hpos & Hc & _ & ->).
  exists c. repeat split; auto; unfold recuperer_solde; simpl.
  - rewrite solde_map_ajustee_autre.
    + rewrite solde_map_ajustee_meme by exact Hnom. lia.
    + rewrite String.eqb_sym. exact Hne.
  - rewrite solde_map_ajustee_meme.
    + rewrite solde_map_ajustee_autre by exact Hne. reflexivity.
    + rewrite existe_map_ajustee. exact Hdest.
Qed.

Lemma transfert_reussi_soldes_temoin :
  utilisateur_existe "alice" alice_et_bob = true
  /\ utilisateur_existe "bob" alice_et_bob = true
  /\ exists c,
       fle0 (float_of_int 1) = false
       /\ convertir_dollars_vers_centimes (Flottant (float_of_int 1)) = Some c
       /\ recuperer_solde "alice"
            (puis (envoyer_argent "alice" "bob" (float_of_int 1)
                     "2024-03-01 10:00:00" alice_et_bob) alice_et_bob)
          = recuperer_solde "alice" alice_et_bob - c - calculer_frais c
       /\ recuperer_solde "bob"
            (puis (envoyer_argent "alice" "bob" (float_of_int 1)
                     "2024-03-01 10:00:00" alice_et_bob) alice_et_bob)
          = recuperer_solde "bob" alice_et_bob + c.
Proof.
  split; [reflexivity|]. split; [reflexivity|].
  apply (transfert_reussi_soldes "alice" "bob" (float_of_int 1)
           "2024-03-01 10:00:00" alice_et_bob);
    vm_compute; reflexivity.
Defined.

(** C4.  When the stored balance of the sender is strictly below the
    amount in cents plus its fee, [envoyer_argent] returns [False] and
    both files are left as they were. *)
Theorem fonds_insuffisants_rejete nom dest x quand f c :
  convertir_dollars_vers_centimes (Flottant x) = Some c ->
  recuperer_solde nom f < c + calculer_frais c ->
  envoyer_argent nom dest x quand f = Some (false, f).
Proof.
  intros Hc Hs. unfold envoyer_argent.
  destruct (String.eqb dest nom); [reflexivity|].
  destruct (fle0 x); [reflexivity|].
  rewrite Hc. apply Z.ltb_lt in Hs. now rewrite Hs.
Qed.

Lemma fonds_insuffisants_rejete_temoin :
  convertir_dollars_vers_centimes (Flottant (float_of_int 1000))
  = Some 100000
  /\ recuperer_solde "alice" alice_et_bob < 100000 + calculer_frais 100000
  /\ envoyer_argent "alice" "bob" (float_of_int 1000) "2024-03-01 10:00:00"
       alice_et_bob
     = Some (false, alice_et_bob).
Proof.
  split; [reflexivity|]. split; [reflexivity|].
  apply (fonds_insuffisants_rejete "alice" "bob" (float_of_int 1000)
           "2024-03-01 10:00:00" alice_et_bob 100000); reflexivity.
Defined.

(** X23.  A transfer to a name that has no line in the accounts file
    goes through: the sender is debited, nobody is credited, the transfer is
    logged, and the receiver still has no line. *)
Lemma transfert_destinataire_absent nom dest x quand f c :
  String.eqb dest nom = false ->
  fle0 x = false ->
  convertir_dollars_vers_centimes (Flottant x) = Some c ->
  c + calculer_frais c <= recuperer_solde nom f ->
  utilisateur_existe dest f = false ->
  exists f',
    envoyer_argent nom dest x quand f = Some (true, f')
    /\ utilisateur_existe dest f' = false
    /\ FICHIER_UTILISATEURS f'
       = map (ligne_ajustee nom (- c - calculer_frais c))
           (FICHIER_UTILISATEURS f).
Proof.
  intros Hne Hpos Hc Hs Habs. unfold envoyer_argent.
  rewrite Hne, Hpos, Hc.
  apply Z.ltb_ge in Hs. rewrite Hs.
  rewrite !ajouter_au_solde_map. simpl.
  eexists; split; [reflexivity|]. unfold utilisateur_existe in *; simpl.
  rewrite map_ajustee_absent; rewrite existe_map_ajustee; auto.
Qed.

(** C10.  [ajouter_au_solde] returns [True]; it leaves the log alone and
    keeps the number and order of the lines of the accounts file; a line
    of another user is written back as it was, a line of the user with its
    balance increased by the amount; and when the user has no line the
    files are rewritten unchanged. *)
Theorem ajouter_au_solde_cadre nom (d : Z) f :
  fst (ajouter_au_solde nom d f) = true
  /\ FICHIER_TRANSACTIONS (snd (ajouter_au_solde nom d f))
     = FICHIER_TRANSACTIONS f
  /\ List.length (FICHIER_UTILISATEURS (snd (ajouter_au_solde nom d f)))
     = List.length (FICHIER_UTILISATEURS f)
  /\ (forall i l,
         nth_error (FICHIER_UTILISATEURS f) i = Some l ->
         nth_error (FICHIER_UTILISATEURS (snd (ajouter_au_solde nom d f))) i
         = Some (if String.eqb (utilisateur l) nom
                 then LigneUtilisateur (utilisateur l) (mot_de_passe l)
                                       (solde l + d)
                 else l))
  /\ (utilisateur_existe nom f = false ->
      snd (ajouter_au_solde nom d f) = f).
Proof.
  rewrite ajouter_au_solde_map. simpl.
  split; [reflexivity|]. split; [reflexivity|].
  split; [apply length_map|]. split.
  - intros i l Hi. rewrite nth_error_map, Hi. simpl. f_equal.
    destruct (String.eqb (utilisateur l) nom) eqn:E.
    + unfold ligne_ajustee. now rewrite E.
    + now apply ligne_ajustee_autre.
  - intros Habs. unfold utilisateur_existe in Habs.
    rewrite map_ajustee_absent by exact Habs. now destruct f.
Qed.

End Transferts.

(** ** Registration and the reachable states *)

Section Inscription.

Variable hacher : string -> string.

Implicit Types (nom mdp quand : string) (f : fichiers)
         (lignes : list ligne_utilisateur).

Lemma existe_dans_In lignes nom :
  utilisateur_existe_dans lignes nom = true
  <-> In nom (map utilisateur lignes).
Proof.
  induction lignes as [|l lignes IH]; simpl.
  - split; [discriminate|tauto].
  - destruct (String.eqb (utilisateur l) nom) eqn:E.
    + apply String.eqb_eq in E. tauto.
    + apply String.eqb_neq in E. rewrite IH. tauto.
Qed.


(** What a registration that returns [True] has checked and written. *)
Lemma enregistrer_utilisateur_reussi nom mdp quand f f' :
  enregistrer_utilisateur hacher nom mdp quand f = (true, f') ->
  est_vide nom = false
  /\ est_vide mdp = false
  /\ utilisateur_existe nom f = false
  /\ f' = Fichiers
            (FICHIER_UTILISATEURS f ++
               [LigneUtilisateur nom (hacher mdp) SOLDE_INITIAL])
            (FICHIER_TRANSACTIONS f ++
               [LigneTransaction NOM_UTILISATEUR_ADMIN nom SOLDE_INITIAL 0
                                 quand]).
Proof.
  unfold enregistrer_utilisateur.
  destruct (est_vide nom); [discriminate|].
  destruct (est_vide mdp); [discriminate|]. simpl.
  destruct (utilisateur_existe nom f); [discriminate|].
  intros [= <-]. auto.
Qed.

Lemma noms_map_ajustee nom (d : Z) lignes :
  map utilisateur (map (ligne_ajustee nom d) lignes) = map utilisateur lignes.
Proof.
  rewrite map_map. apply map_ext. reflexivity.
Qed.




End Inscription.

(** ** The scenario, step by step *)

Section Scenario.

Let h := hachage_exemple.





End Scenario.

(** ** The balances of the reachable states *)




(** ** Registration *)




(** ** The receiver of a transfer *)

(** C3, on the code.  Alice holds 1000 dollars and bob has no line in the
    accounts file.  Alice sends one dollar to bob: [envoyer_argent]
    returns [True], alice is debited of 100 cents and 5 cents of fee, the
    transfer is logged, and bob still has no line: the 100 cents are
    credited to nobody. *)
Theorem transfert_vers_inconnu_accepte :
  utilisateur_existe "bob" alice_seule = false
  /\ envoyer_argent "alice" "bob" (float_of_int 1) "2024-03-01 10:00:00"
       alice_seule
     = Some (true,
             Fichiers
               [LigneUtilisateur "alice" (hachage_exemple "pw123") 99895]
               [LigneTransaction "ift-1004-union" "alice" 100000 0
                                 "2024-03-01 09:00:00";
                LigneTransaction "alice" "bob" 100 5 "2024-03-01 10:00:00"])
  /\ utilisateur_existe "bob"
       (puis (envoyer_argent "alice" "bob" (float_of_int 1)
                "2024-03-01 10:00:00" alice_seule) alice_seule)
     = false.
Proof.
  repeat split; vm_compute; reflexivity.
Qed.

(** ** The fee schedule *)

Section Frais.



(** C2, on the code.  The amounts handed to [calculer_frais] are in cents
    and the bounds of the tiers are compared with them as they are: the
    10000 cents of a transfer of 100 dollars and the 20000 cents of a
    transfer of 200 dollars both fall in the last tier, at 25 percent, and
    the fees are 2500 and 5000 cents.  (The 5 and the 20 that the first two
    tiers give are the fees of 100 cents and of 200 cents.) *)
Theorem frais_de_cent_et_deux_cents_dollars :
  convertir_dollars_vers_centimes (Flottant (float_of_int 100)) = Some 10000
  /\ calculer_frais 10000 = 2500
  /\ convertir_dollars_vers_centimes (Flottant (float_of_int 200))
     = Some 20000
  /\ calculer_frais 20000 = 5000
  /\ dans_tranche (Tranche 5001 Infini 25) 10000 = true
  /\ dans_tranche (Tranche 0 (Fini 100) 5) 10000 = false
  /\ calculer_frais 100 = 5
  /\ calculer_frais 200 = 20.
Proof.
  repeat split; reflexivity.
Qed.


End Frais.

(** ** The log *)

Section Journal.

Implicit Types (nom : string) (t : ligne_transaction)
         (ts : list ligne_transaction) (f : fichiers)
         (rs : list (list string)).


Lemma consulter_boucle_rangees nom ts rs :
  consulter_boucle nom ts rs
  = match rangees (filter (concerne nom) ts) with
    | Some rs' => Some (rs ++ rs')%list
    | None => None
    end.
Proof.
  revert rs; induction ts as [|t ts IH]; intros rs; simpl.
  - now rewrite app_nil_r.
  - destruct (concerne nom t); simpl; [|apply IH].
    destruct (ligne_tableau t) as [r|]; [|reflexivity].
    rewrite IH. destruct (rangees _); [|reflexivity].
    now rewrite <- app_assoc.
Qed.

Lemma rangees_Forall2 ts rs :
  rangees ts = Some rs
  <-> Forall2 (fun t r => ligne_tableau t = Some r) ts rs.
Proof.
  revert rs; induction ts as [|t ts IH]; intros rs; simpl.
  - split.
    + intros [= <-]. constructor.
    + intros H; inversion H. reflexivity.
  - split.
    + destruct (ligne_tableau t) as [r|] eqn:Er; [|discriminate].
      destruct (rangees ts) as [rs'|]; [|discriminate].
      intros [= <-]. constructor; [exact Er|]. now apply IH.
    + intros H; inversion H as [|? r ? rs' Hr Hrs]; subst.
      rewrite Hr. apply IH in Hrs. now rewrite Hrs.
Qed.









End Journal.

(** ** The rendering of an amount *)

(** C9, on the code.  [formater_argent] formats the dollars alone: for 150
    cents it returns the dollar with two zeros where the documented
    rendering has the fifty cents, and for 100000 cents it returns the
    thousand dollars with no fractional digits at all. *)
Theorem formater_argent_sans_les_centimes :
  formater_argent 150 = Some "1.00 $"
  /\ formater_argent_spec 150 = "1.50 $"
  /\ formater_argent 100000 = Some "1,000 $"
  /\ formater_argent_spec 100000 = "1,000.00 $"
  /\ formater_argent 123456789 = Some "1,234,567.00 $"
  /\ formater_argent_spec 123456789 = "1,234,567.89 $".
Proof.
  repeat split; vm_compute; reflexivity.
Qed.

(** * Further properties of the code *)

(** ** The checks of a transfer *)

Section Controles.

Implicit Types (nom dest : string) (x : float) (quand : string)
         (f : fichiers).

(** X1.  A transfer returns [False] in three cases and in no other: the
    receiver is the sender, the amount typed is zero or negative, or the
    amount converts to a number of cents that, with its fee, exceeds the
    balance of the sender.  In each of them both files are left as they
    were.  The receiver having no line is not one of the cases. *)
Theorem transfert_refuse nom dest x quand f f' :
  envoyer_argent nom dest x quand f = Some (false, f')
  <-> f' = f
      /\ (String.eqb dest nom = true
          \/ fle0 x = true
          \/ exists c,
               convertir_dollars_vers_centimes (Flottant x) = Some c
               /\ recuperer_solde nom f < c + calculer_frais c).
Proof.
  unfold envoyer_argent. split.
  - destruct (String.eqb dest nom) eqn:Hne.
    { intros H. injection H as <-. split; [reflexivity|]. now left. }
    destruct (fle0 x) eqn:Hx.
    { intros H. injection H as <-. split; [reflexivity|]. now right; left. }
    destruct (convertir_dollars_vers_centimes (Flottant x)) as [c|] eqn:Hc;
      [|discriminate].
    destruct (recuperer_solde nom f <? c + calculer_frais c) eqn:Hs.
    { intros H. injection H as <-. split; [reflexivity|].
      right; right. exists c. split; [reflexivity|]. now apply Z.ltb_lt. }
    rewrite !ajouter_au_solde_map. cbn [negb]. discriminate.
  - intros [-> [Hne | [Hx | [c [Hc Hs]]]]].
    + now rewrite Hne.
    + destruct (String.eqb dest nom); [reflexivity|]. now rewrite Hx.
    + destruct (String.eqb dest nom); [reflexivity|].
      destruct (fle0 x); [reflexivity|].
      rewrite Hc. apply Z.ltb_lt in Hs. now rewrite Hs.
Qed.

(** X2.  A transfer to another user of NaN or of plus infinity raises: the
    positivity test lets both through and the conversion to cents fails
    on them.  Nothing has been written at that point. *)
Theorem montant_nan_ou_infini_leve nom dest quand f :
  String.eqb dest nom = false ->
  envoyer_argent nom dest S754_nan quand f = None
  /\ envoyer_argent nom dest (S754_infinity false) quand f = None.
Proof.
  intros Hne. unfold envoyer_argent. rewrite Hne. split; reflexivity.
Qed.

Lemma montant_nan_ou_infini_leve_temoin :
  String.eqb "bob" "alice" = false
  /\ envoyer_argent "alice" "bob" S754_nan "2024-03-01 10:00:00"
       alice_et_bob = None
  /\ envoyer_argent "alice" "bob" (S754_infinity false)
       "2024-03-01 10:00:00" alice_et_bob = None.
Proof.
  split; [reflexivity|].
  apply (montant_nan_ou_infini_leve "alice" "bob" "2024-03-01 10:00:00"
           alice_et_bob).
  reflexivity.
Defined.

Lemma ligne_ajustee_zero nom (l : ligne_utilisateur) :
  ligne_ajustee nom 0 l = l.
Proof.
  unfold ligne_ajustee. destruct l as [u h s]; simpl.
  destruct (String.eqb u nom); f_equal; lia.
Qed.

Lemma map_ajustee_zero nom (lignes : list ligne_utilisateur) :
  map (ligne_ajustee nom 0) lignes = lignes.
Proof.
  induction lignes as [|l lignes IH]; simpl; [reflexivity|].
  now rewrite ligne_ajustee_zero, IH.
Qed.

(** X3.  A positive amount below one cent converts to zero cents, for
    which the fee is zero.  Sent to another name by a user whose stored
    balance is not negative, it goes through: the accounts file is
    rewritten as it was, and a record of zero cents joins the log. *)
Theorem transfert_de_zero_centime nom dest x quand f :
  String.eqb dest nom = false ->
  fle0 x = false ->
  convertir_dollars_vers_centimes (Flottant x) = Some 0 ->
  0 <= recuperer_solde nom f ->
  envoyer_argent nom dest x quand f
  = Some (true,
          Fichiers (FICHIER_UTILISATEURS f)
                   (FICHIER_TRANSACTIONS f ++
                      [LigneTransaction nom dest 0 0 quand])).
Proof.
  intros Hne Hx Hc Hs. unfold envoyer_argent.
  rewrite Hne, Hx, Hc.
  change (calculer_frais 0) with 0. simpl (0 + 0). simpl (- 0 - 0).
  apply Z.ltb_ge in Hs. rewrite Hs.
  rewrite !ajouter_au_solde_map. simpl.
  now rewrite !map_ajustee_zero.
Qed.

Lemma transfert_de_zero_centime_temoin :
  String.eqb "bob" "alice" = false
  /\ fle0 un_millieme = false
  /\ convertir_dollars_vers_centimes (Flottant un_millieme) = Some 0
  /\ 0 <= recuperer_solde "alice" alice_et_bob
  /\ envoyer_argent "alice" "bob" un_millieme "2024-03-01 10:00:00"
       alice_et_bob
     = Some (true,
             Fichiers (FICHIER_UTILISATEURS alice_et_bob)
                      (FICHIER_TRANSACTIONS alice_et_bob ++
                         [LigneTransaction "alice" "bob" 0 0
                                           "2024-03-01 10:00:00"])).
Proof.
  split; [reflexivity|]. split; [reflexivity|]. split; [reflexivity|].
  split; [vm_compute; discriminate|].
  apply (transfert_de_zero_centime "alice" "bob" un_millieme
           "2024-03-01 10:00:00" alice_et_bob);
    try reflexivity.
  vm_compute; discriminate.
Defined.

End Controles.

(** ** Registration and connection *)

Section Connexion.

Variable hacher : string -> string.

Implicit Types (nom mdp quand : string) (f : fichiers)
         (lignes : list ligne_utilisateur).

(** X4.  A registration returns [False] exactly when the name is empty,
    the password is empty or the name already has a line; and a
    registration that returns [False] leaves both files as they were. *)
Theorem inscription_refusee nom mdp quand f :
  (fst (enregistrer_utilisateur hacher nom mdp quand f) = false
   <-> est_vide nom = true \/ est_vide mdp = true
       \/ utilisateur_existe nom f = true)
  /\ (fst (enregistrer_utilisateur hacher nom mdp quand f) = false ->
      snd (enregistrer_utilisateur hacher nom mdp quand f) = f).
Proof.
  unfold enregistrer_utilisateur.
  destruct (est_vide nom), (est_vide mdp), (utilisateur_existe nom f);
    simpl; intuition discriminate.
Qed.



(** X6.  The connection under a name that has no line fails, whatever the
    password. *)
Theorem connexion_inconnu_refusee nom mdp f :
  utilisateur_existe nom f = false ->
  connecter_utilisateur hacher nom mdp f = None.
Proof.
  unfold utilisateur_existe, connecter_utilisateur.
  induction (FICHIER_UTILISATEURS f) as [|l lignes IH]; simpl;
    [reflexivity|].
  destruct (String.eqb (utilisateur l) nom); [discriminate|]. exact IH.
Qed.

Lemma connecter_dans_map_ajustee lignes nom mdp autre (d : Z) :
  connecter_dans hacher (map (ligne_ajustee autre d) lignes) nom mdp
  = connecter_dans hacher lignes nom mdp.
Proof.
  induction lignes as [|l lignes IH]; simpl; [reflexivity|].
  now rewrite IH.
Qed.

(** X7.  A transfer, whatever it returns, changes the outcome of no
    connection: names and digests are written back as they were read. *)
Theorem connexion_apres_transfert nom mdp expe dest x quand f b f' :
  envoyer_argent expe dest x quand f = Some (b, f') ->
  connecter_utilisateur hacher nom mdp f'
  = connecter_utilisateur hacher nom mdp f.
Proof.
  unfold envoyer_argent.
  destruct (String.eqb dest expe); [now intros [= <- <-]|].
  destruct (fle0 x); [now intros [= <- <-]|].
  destruct (convertir_dollars_vers_centimes (Flottant x)) as [c|];
    [|discriminate].
  destruct (recuperer_solde expe f <? c + calculer_frais c);
    [now intros [= <- <-]|].
  rewrite !ajouter_au_solde_map. simpl. intros [= <- <-].
  unfold connecter_utilisateur. simpl.
  now rewrite !connecter_dans_map_ajustee.
Qed.

End Connexion.


Lemma connexion_inconnu_refusee_temoin :
  utilisateur_existe "carol" alice_et_bob = false
  /\ connecter_utilisateur hachage_exemple "carol" "pw123" alice_et_bob
     = None.
Proof.
  split; [reflexivity|].
  apply (connexion_inconnu_refusee hachage_exemple "carol" "pw123"
           alice_et_bob).
  reflexivity.
Defined.

Lemma connexion_apres_transfert_temoin :
  envoyer_argent "alice" "bob" (float_of_int 1) "2024-03-01 10:00:00"
    alice_et_bob
  = Some (true,
          puis (envoyer_argent "alice" "bob" (float_of_int 1)
                  "2024-03-01 10:00:00" alice_et_bob) alice_et_bob)
  /\ connecter_utilisateur hachage_exemple "alice" "pw123"
       (puis (envoyer_argent "alice" "bob" (float_of_int 1)
                "2024-03-01 10:00:00" alice_et_bob) alice_et_bob)
     = connecter_utilisateur hachage_exemple "alice" "pw123" alice_et_bob.
Proof.
  split; [vm_compute; reflexivity|].
  apply (connexion_apres_transfert hachage_exemple "alice" "pw123"
           "alice" "bob" (float_of_int 1) "2024-03-01 10:00:00"
           alice_et_bob true).
  vm_compute. reflexivity.
Defined.

(** ** What every operation keeps *)

Lemma total_map_ajustee (lignes : list ligne_utilisateur) (nom : string)
      (d : Z) :
  NoDup (map utilisateur lignes) ->
  fold_right (fun l s => solde l + s) 0 (map (ligne_ajustee nom d) lignes)
  = fold_right (fun l s => solde l + s) 0 lignes
    + (if utilisateur_existe_dans lignes nom then d else 0).
Proof.
  induction lignes as [|l lignes IH]; simpl; [reflexivity|].
  intros Hnd. inversion Hnd as [|? ? Hnotin Hnd']; subst.
  destruct (String.eqb (utilisateur l) nom) eqn:E.
  - apply String.eqb_eq in E. subst nom.
    rewrite map_ajustee_absent; [lia|].
    destruct (utilisateur_existe_dans lignes (utilisateur l)) eqn:Ex;
      [|reflexivity].
    exfalso. apply Hnotin. now apply (existe_dans_In (fun s => s)).
  - rewrite IH by assumption. lia.
Qed.

(** X11.  With distinct names in the accounts file, a transfer that
    returns [True] between two users who both have a line lowers the sum
    of all balances by the fee, and by nothing else. *)
Theorem transfert_conserve_le_total (nom dest : string) (x : float)
        (quand : string) (f f' : fichiers) :
  NoDup (map utilisateur (FICHIER_UTILISATEURS f)) ->
  utilisateur_existe nom f = true ->
  utilisateur_existe dest f = true ->
  envoyer_argent nom dest x quand f = Some (true, f') ->
  exists c,
    convertir_dollars_vers_centimes (Flottant x) = Some c
    /\ total_soldes f' = total_soldes f - calculer_frais c.
Proof.
  intros Hnd Hnom Hdest H.
  apply envoyer_argent_reussi in H as (c & _ & _ & Hc & _ & ->).
  exists c. split; [exact Hc|]. unfold total_soldes. simpl.
  unfold utilisateur_existe in *.
  rewrite total_map_ajustee by now rewrite noms_map_ajustee.
  rewrite existe_map_ajustee, Hdest.
  rewrite total_map_ajustee by assumption. rewrite Hnom. lia.
Qed.

Section Conservation.

Variable hacher : string -> string.

Implicit Types (nom dest : string) (f : fichiers) (d : Z)
         (lignes : list ligne_utilisateur).


(** X9.  An operation that returns [True] appends exactly one record to
    the log and leaves the records that were there in place; and it keeps
    every line of the accounts file with its name and its digest, in
    order, adding at most one line at the end. *)
Theorem etape_conserve f f' :
  etape hacher f f' ->
  (exists t, FICHIER_TRANSACTIONS f' = (FICHIER_TRANSACTIONS f ++ [t])%list)
  /\ (exists nouveaux,
         identifiants f' = (identifiants f ++ nouveaux)%list
         /\ (List.length nouveaux <= 1)%nat).
Proof.
  intros [nom mdp quand g g' H | nom dest x quand g g' H].
  - apply enregistrer_utilisateur_reussi in H as (_ & _ & _ & ->).
    split; [eexists; reflexivity|].
    unfold identifiants. simpl. rewrite map_app. simpl.
    eexists; split; [reflexivity|]. simpl. lia.
  - apply envoyer_argent_reussi in H as (c & _ & _ & _ & _ & ->).
    split; [eexists; reflexivity|].
    exists []. unfold identifiants. simpl.
    rewrite app_nil_r, !map_map. split; [|simpl; lia].
    apply map_ext. reflexivity.
Qed.





End Conservation.

Lemma scenario_5_etape : etape hachage_exemple scenario_4 scenario_5.
Proof.
  eapply etape_inscription
    with (nom := "bob") (mdp := "pw123") (quand := "2024-03-01 09:20:00").
  vm_compute. reflexivity.
Qed.


Lemma etape_conserve_temoin :
  etape hachage_exemple scenario_4 scenario_5
  /\ (exists t,
         FICHIER_TRANSACTIONS scenario_5
         = (FICHIER_TRANSACTIONS scenario_4 ++ [t])%list)
  /\ (exists nouveaux,
         identifiants scenario_5 = (identifiants scenario_4 ++ nouveaux)%list
         /\ (List.length nouveaux <= 1)%nat).
Proof.
  split; [apply scenario_5_etape|].
  apply (etape_conserve hachage_exemple scenario_4 scenario_5).
  apply scenario_5_etape.
Defined.


Lemma transfert_conserve_le_total_temoin :
  NoDup (map utilisateur (FICHIER_UTILISATEURS alice_et_bob))
  /\ utilisateur_existe "alice" alice_et_bob = true
  /\ utilisateur_existe "bob" alice_et_bob = true
  /\ exists c,
       convertir_dollars_vers_centimes (Flottant (float_of_int 1)) = Some c
       /\ total_soldes
            (puis (envoyer_argent "alice" "bob" (float_of_int 1)
                     "2024-03-01 10:00:00" alice_et_bob) alice_et_bob)
          = total_soldes alice_et_bob - calculer_frais c.
Proof.
  assert (Hnd : NoDup (map utilisateur (FICHIER_UTILISATEURS alice_et_bob))).
  { simpl. repeat constructor; simpl; intuition discriminate. }
  split; [exact Hnd|]. split; [reflexivity|]. split; [reflexivity|].
  apply (transfert_conserve_le_total "alice" "bob" (float_of_int 1)
           "2024-03-01 10:00:00" alice_et_bob);
    try reflexivity; exact Hnd.
Defined.


(** ** Adjusting a balance several times *)

(** X13.  Two adjustments of the balance of the same user amount to one
    adjustment by the sum; an adjustment followed by the opposite one
    restores the files; and adjustments of two users can be made in either
    order. *)
Theorem ajouter_au_solde_compose (nom autre : string) (a b : Z) f :
  snd (ajouter_au_solde nom b (snd (ajouter_au_solde nom a f)))
  = snd (ajouter_au_solde nom (a + b) f)
  /\ snd (ajouter_au_solde nom (- a) (snd (ajouter_au_solde nom a f))) = f
  /\ snd (ajouter_au_solde autre b (snd (ajouter_au_solde nom a f)))
     = snd (ajouter_au_solde nom a (snd (ajouter_au_solde autre b f))).
Proof.
  repeat (rewrite !ajouter_au_solde_map; cbn [snd FICHIER_UTILISATEURS
                                               FICHIER_TRANSACTIONS]).
  rewrite !map_map.
  assert (E1 : forall l,
             ligne_ajustee nom b (ligne_ajustee nom a l)
             = ligne_ajustee nom (a + b) l).
  { intros l. unfold ligne_ajustee. simpl.
    destruct (String.eqb (utilisateur l) nom); f_equal; lia. }
  assert (E2 : forall l,
             ligne_ajustee nom (- a) (ligne_ajustee nom a l) = l).
  { intros l. unfold ligne_ajustee. destruct l as [u h s]. simpl.
    destruct (String.eqb u nom); f_equal; lia. }
  assert (E3 : forall l,
             ligne_ajustee autre b (ligne_ajustee nom a l)
             = ligne_ajustee nom a (ligne_ajustee autre b l)).
  { intros l. unfold ligne_ajustee. simpl.
    destruct (String.eqb (utilisateur l) nom),
             (String.eqb (utilisateur l) autre); f_equal; lia. }
  split; [|split].
  - f_equal. now apply map_ext.
  - destruct f as [us ts]. simpl. f_equal.
    rewrite (map_ext _ (fun l => l) E2). apply map_id.
  - f_equal. now apply map_ext.
Qed.

(** ** The tiers of the fee *)

(** X14.  Every amount from zero upward lies in exactly one tier of
    [FRAIS_TRANSACTIONS]; a negative amount lies in none and its fee is
    zero. *)
Theorem tranches_partition :
  (forall a, 0 <= a ->
     exists t,
       In t FRAIS_TRANSACTIONS
       /\ dans_tranche t a = true
       /\ forall t', In t' FRAIS_TRANSACTIONS ->
                     dans_tranche t' a = true -> t' = t)
  /\ (forall a, a < 0 ->
        (forall t, In t FRAIS_TRANSACTIONS -> dans_tranche t a = false)
        /\ calculer_frais a = 0).
Proof.
  split.
  - intros a Ha.
    assert (C : a <= 100 \/ 101 <= a <= 500 \/ 501 <= a <= 1000
                \/ 1001 <= a <= 5000 \/ 5001 <= a) by lia.
    destruct C as [C|[C|[C|[C|C]]]];
      [exists (Tranche 0 (Fini 100) 5)
      |exists (Tranche 101 (Fini 500) 10)
      |exists (Tranche 501 (Fini 1000) 15)
      |exists (Tranche 1001 (Fini 5000) 20)
      |exists (Tranche 5001 Infini 25)];
      (split; [simpl; tauto|]);
      (split;
       [unfold dans_tranche; simpl;
        rewrite ?andb_true_iff, ?Z.leb_le; lia
       |intros t' [<-|[<-|[<-|[<-|[<-|[]]]]]]; unfold dans_tranche; simpl;
        rewrite ?andb_true_iff, ?Z.leb_le; intros; try reflexivity; lia]).
  - intros a Ha. split.
    + intros t [<-|[<-|[<-|[<-|[<-|[]]]]]]; unfold dans_tranche; simpl;
        apply andb_false_intro1; apply Z.leb_gt; lia.
    + unfold calculer_frais, FRAIS_TRANSACTIONS. simpl.
      unfold dans_tranche. simpl.
      repeat match goal with
             | |- context [?x <=? a] =>
                 replace (x <=? a) with false by (symmetry; apply Z.leb_gt; lia)
             end.
      reflexivity.
Qed.


(** ** The table printed by [afficher_tableau] *)

Section Tableau.

Local Open Scope nat_scope.

Implicit Types (s t : string) (ws : list nat) (ligne : list string)
         (lignes : list (list string)).

Lemma longueur_append s t :
  String.length (s ++ t) = String.length s + String.length t.
Proof.
  induction s as [|c s IH]; simpl; [reflexivity|]. now rewrite IH.
Qed.

Lemma longueur_repeat (c : ascii) n :
  String.length (string_of_list_ascii (repeat c n)) = n.
Proof.
  induction n as [|n IH]; simpl; [reflexivity|]. now rewrite IH.
Qed.

(** Centring pads a string up to the width and never cuts it. *)
Lemma longueur_center s w :
  String.length (center s w) = Nat.max w (String.length s).
Proof.
  unfold center. destruct (Nat.leb_spec w (String.length s)) as [H|H];
    [lia|].
  unfold blancs. rewrite !longueur_append, !longueur_repeat.
  set (marg := w - String.length s).
  assert (marg / 2 <= marg) by (apply Nat.Div0.div_le_upper_bound; lia).
  assert (Hm : 0 < marg) by (unfold marg; lia).
  assert (marg / 2 < marg) by (apply Nat.div_lt; lia).
  destruct (Nat.odd marg && Nat.odd w); unfold marg in *; lia.
Qed.

Lemma longueur_join sep (l : list string) :
  String.length (join sep l)
  = list_sum (map String.length l)
    + String.length sep * (List.length l - 1).
Proof.
  induction l as [|x [|y l] IH]; simpl in *; try lia.
  rewrite !longueur_append, IH. simpl. lia.
Qed.

Lemma tous_Forall2 {A B : Type} (f : A -> option B) (l : list A) ys :
  tous f l = Some ys <-> Forall2 (fun x y => f x = Some y) l ys.
Proof.
  revert ys; induction l as [|x l IH]; intros ys; simpl.
  - split; [intros [= <-]; constructor|intros H; now inversion H].
  - split.
    + destruct (f x) as [y|] eqn:E; [|discriminate].
      destruct (tous f l) as [ys'|]; [|discriminate].
      intros [= <-]. constructor; [exact E|]. now apply IH.
    + intros H; inversion H as [|? y ? ys' Hy Hys]; subst.
      rewrite Hy. apply IH in Hys. now rewrite Hys.
Qed.

Lemma tous_None {A B : Type} (f : A -> option B) (l : list A) :
  tous f l = None <-> Exists (fun x => f x = None) l.
Proof.
  induction l as [|x l IH]; simpl.
  - split; [discriminate|intros H; inversion H].
  - destruct (f x) as [y|] eqn:E.
    + destruct (tous f l) as [ys|].
      * split; [discriminate|]. intros H.
        inversion H as [? ? H'|? ? H']; subst; [congruence|].
        apply IH in H'. discriminate.
      * split; auto. intros _. apply Exists_cons_tl. now apply IH.
    + split; auto.
Qed.

Lemma nth_error_enumerate {A : Type} (l : list A) i :
  nth_error (enumerate l) i
  = option_map (fun x => (i, x)) (nth_error l i).
Proof.
  unfold enumerate.
  assert (G : forall k,
             nth_error (combine (seq k (List.length l)) l) i
             = option_map (fun x => (k + i, x)) (nth_error l i)).
  { revert i; induction l as [|x l IH]; intros i k; simpl.
    - now destruct i.
    - destruct i as [|i]; simpl; [now rewrite Nat.add_0_r|].
      rewrite IH. destruct (nth_error l i); simpl; [|reflexivity].
      do 2 f_equal. lia. }
  exact (G 0).
Qed.

(** The longest string found by [max(..., key=len)] is at least as long
    as every string of the list. *)
Lemma max_len_borne (l : list string) :
  l <> [] ->
  exists m, max_len l = Some m
            /\ forall x, In x l -> String.length x <= String.length m.
Proof.
  destruct l as [|x l]; [congruence|]. intros _. simpl.
  eexists; split; [reflexivity|].
  assert (G : forall (l : list string) b,
             String.length b
             <= String.length
                  (fold_left
                     (fun meilleur y =>
                        if String.length meilleur <? String.length y
                        then y else meilleur) l b)
             /\ forall y, In y l ->
                  String.length y
                  <= String.length
                       (fold_left
                          (fun meilleur y =>
                             if String.length meilleur <? String.length y
                             then y else meilleur) l b)).
  { clear. induction l as [|z l IH]; intros b; simpl; [split; [lia|tauto]|].
    destruct (Nat.ltb_spec (String.length b) (String.length z)) as [H|H].
    - destruct (IH z) as [H1 H2]. split; [lia|].
      intros y [<-|Hy]; auto.
    - destruct (IH b) as [H1 H2]. split; [lia|].
      intros y [<-|Hy]; auto. lia. }
  destruct (G l x) as [H1 H2]. intros y [<-|Hy]; auto.
Qed.

(** The width of a column: defined when every row reaches the column, and
    then at least the length of the header and of every cell of the
    column. *)
Lemma largeur_borne lignes idx en_tete :
  Forall (fun ligne => idx < List.length ligne) lignes ->
  exists w,
    largeur lignes idx en_tete = Some w
    /\ String.length en_tete <= w
    /\ forall ligne c,
         In ligne lignes -> nth_error ligne idx = Some c ->
         String.length c <= w.
Proof.
  intros Hall. unfold largeur.
  destruct (tous (fun ligne => nth_error ligne idx) lignes)
    as [cellules|] eqn:E.
  - destruct (max_len_borne (cellules ++ [en_tete])) as (m & Hm & Hmax).
    { now destruct cellules. }
    rewrite Hm. simpl. eexists; split; [reflexivity|]. split.
    + apply Hmax, in_or_app. right. now left.
    + intros ligne c Hin Hc. apply Hmax, in_or_app. left.
      apply tous_Forall2 in E. clear -E Hin Hc.
      induction E as [|l' c' ls cs Hl _ IH]; [destruct Hin|].
      destruct Hin as [->|Hin]; [left; congruence|right; auto].
  - exfalso. apply tous_None in E. apply Exists_exists in E as (l & Hl & E).
    rewrite Forall_forall in Hall. specialize (Hall l Hl).
    apply nth_error_None in E. lia.
Qed.


(** A line whose cells fit the widths, one for one, is as long as the
    widths and the separators between them. *)
Lemma ligne_centree_longueur ws ligne :
  Forall2 (fun w c => String.length c <= w) ws ligne ->
  exists s,
    ligne_centree ws ligne = Some s
    /\ String.length s + 4 = largeur_tableau ws.
Proof.
  intros H. unfold ligne_centree.
  assert (E : tous (fun '(idx, item) =>
                      option_map (center item) (nth_error ws idx))
                   (enumerate ligne)
              = Some (map (fun '(w, c) => center c w) (combine ws ligne))).
  { apply tous_Forall2. unfold enumerate.
    assert (G : forall pre,
               Forall2
                 (fun x y =>
                    (let '(idx, item) := x in
                     option_map (center item) (nth_error (pre ++ ws)%list idx))
                    = Some y)
                 (combine (seq (List.length pre) (List.length ligne)) ligne)
                 (map (fun '(w, c) => center c w) (combine ws ligne))).
    { induction H as [|w c ws' ligne' Hwc _ IH]; intros pre; simpl;
        constructor.
      - rewrite nth_error_app2 by lia. rewrite Nat.sub_diag. reflexivity.
      - specialize (IH (pre ++ [w])%list).
        rewrite length_app, Nat.add_1_r in IH.
        eapply Forall2_impl; [|exact IH].
        intros [idx item] y. now rewrite <- app_assoc. }
    exact (G []). }
  rewrite E. simpl. eexists; split; [reflexivity|].
  rewrite longueur_join. unfold largeur_tableau.
  assert (L : List.length (map (fun '(w, c) => center c w)
                               (combine ws ligne))
              = List.length ws).
  { rewrite length_map, length_combine.
    apply Forall2_length in H. lia. }
  assert (S : list_sum (map String.length
                          (map (fun '(w, c) => center c w)
                               (combine ws ligne)))
              = list_sum ws).
  { clear E L. induction H as [|w c ws' ligne' Hwc _ IH]; simpl;
      [reflexivity|].
    rewrite IH, longueur_center. lia. }
  rewrite L, S. simpl. lia.
Qed.

Lemma Forall2_nth_error_r {A B : Type} (R : A -> B -> Prop) l1 l2 i b :
  Forall2 R l1 l2 -> nth_error l2 i = Some b ->
  exists a, nth_error l1 i = Some a /\ R a b.
Proof.
  intros H. revert i. induction H as [|a' b' l1 l2 Hab _ IH]; intros i.
  - now destruct i.
  - destruct i as [|i]; simpl; [intros [= <-]; eauto|apply IH].
Qed.

Lemma Forall2_par_indice {A B : Type} (R : A -> B -> Prop) l1 l2 :
  List.length l1 = List.length l2 ->
  (forall i a b, nth_error l1 i = Some a -> nth_error l2 i = Some b ->
                 R a b) ->
  Forall2 R l1 l2.
Proof.
  revert l2; induction l1 as [|a l1 IH]; intros [|b l2] Hlen H;
    try discriminate; constructor.
  - exact (H 0 a b eq_refl eq_refl).
  - apply IH; [simpl in Hlen; lia|].
    intros i a' b' Ha Hb. exact (H (S i) a' b' Ha Hb).
Qed.

Lemma tous_defini {A B : Type} (f : A -> option B) (P : B -> Prop)
      (l : list A) :
  (forall x, In x l -> exists y, f x = Some y /\ P y) ->
  exists ys, tous f l = Some ys
             /\ Forall P ys /\ List.length ys = List.length l.
Proof.
  induction l as [|x l IH]; intros H; simpl.
  - exists []. auto.
  - destruct (H x (or_introl eq_refl)) as (y & -> & Hy).
    destruct IH as (ys & -> & Hys & Hlen); [intros z Hz; apply H; now right|].
    exists (y :: ys). simpl. auto.
Qed.

(** The widths that [afficher_tableau] computes: one for each header, at
    least as wide as the header and as every cell below it. *)
Lemma largeurs_calculees lignes en_tetes :
  Forall (fun ligne => List.length ligne = List.length en_tetes) lignes ->
  exists ws,
    tous (fun '(idx, en_tete) => largeur lignes idx en_tete)
         (enumerate en_tetes) = Some ws
    /\ Forall2 (fun w c => String.length c <= w) ws en_tetes
    /\ forall ligne, In ligne lignes ->
                     Forall2 (fun w c => String.length c <= w) ws ligne.
Proof.
  intros Hall. rewrite Forall_forall in Hall.
  assert (Hidx : forall idx, idx < List.length en_tetes ->
                   Forall (fun ligne => idx < List.length ligne) lignes).
  { intros idx Hi. apply Forall_forall. intros l Hl.
    rewrite (Hall l Hl). exact Hi. }
  destruct (tous (fun '(idx, en_tete) => largeur lignes idx en_tete)
                 (enumerate en_tetes)) as [ws|] eqn:E.
  - exists ws. split; [reflexivity|].
    apply tous_Forall2 in E.
    assert (Hlen : List.length ws = List.length en_tetes).
    { apply Forall2_length in E. unfold enumerate in E.
      rewrite length_combine, length_seq in E. lia. }
    assert (Hw : forall i w, nth_error ws i = Some w ->
               exists h, nth_error en_tetes i = Some h
                         /\ String.length h <= w
                         /\ forall ligne c,
                              In ligne lignes ->
                              nth_error ligne i = Some c ->
                              String.length c <= w).
    { intros i w Hi.
      destruct (Forall2_nth_error_r _ _ _ _ _ E Hi) as ([idx h] & Hx & Hl).
      rewrite nth_error_enumerate in Hx.
      destruct (nth_error en_tetes i) as [h'|] eqn:Eh; [|discriminate].
      injection Hx as <- <-. exists h'. split; [reflexivity|].
      assert (Hlt : i < List.length en_tetes).
      { apply nth_error_Some. congruence. }
      destruct (largeur_borne lignes i h' (Hidx i Hlt)) as (w' & Hw' & B).
      assert (w' = w) by congruence. subst w'. exact B. }
    split.
    + apply Forall2_par_indice; [exact Hlen|].
      intros i w c Hi Hc. destruct (Hw i w Hi) as (h & Hh & B & _).
      congruence.
    + intros ligne Hin. apply Forall2_par_indice.
      * rewrite Hlen. symmetry. now apply Hall.
      * intros i w c Hi Hc. destruct (Hw i w Hi) as (h & _ & _ & B).
        now apply (B ligne c).
  - exfalso. apply tous_None in E.
    apply Exists_exists in E as ([idx h] & Hin & E).
    apply In_nth_error in Hin as [i Hi].
    rewrite nth_error_enumerate in Hi.
    destruct (nth_error en_tetes i) as [h'|] eqn:Eh; [|discriminate].
    injection Hi as <- <-.
    assert (Hlt : i < List.length en_tetes).
    { apply nth_error_Some. congruence. }
    destruct (largeur_borne lignes i h' (Hidx i Hlt)) as (w' & Hw' & _).
    congruence.
Qed.

(** The table of rows that all have as many cells as there are headers:
    the lines printed and their common length. *)
Lemma tableau_rectangulaire lignes en_tetes :
  Forall (fun ligne => List.length ligne = List.length en_tetes) lignes ->
  exists sortie ws,
    afficher_tableau lignes en_tetes = Some sortie
    /\ List.length ws = List.length en_tetes
    /\ List.length sortie = 4 + List.length lignes
    /\ Forall (fun s => String.length s = largeur_tableau ws) sortie
    /\ Forall2 (fun w c => String.length c <= w) ws en_tetes
    /\ (forall ligne, In ligne lignes ->
                      Forall2 (fun w c => String.length c <= w) ws ligne).
Proof.
  intros Hall.
  destruct (largeurs_calculees lignes en_tetes Hall)
    as (ws & Ews & Hh & Hl).
  unfold afficher_tableau. rewrite Ews.
  destruct (ligne_centree_longueur ws en_tetes Hh) as (hf & -> & Hhf).
  destruct (tous_defini (ligne_centree ws)
              (fun s => String.length s + 4 = largeur_tableau ws) lignes)
    as (lf & -> & Hlf & Hlen).
  { intros ligne Hin. apply ligne_centree_longueur. now apply Hl. }
  eexists; exists ws. split; [reflexivity|]. split.
  { now apply Forall2_length in Hh. }
  split.
  { simpl. rewrite length_app, length_map. simpl. lia. }
  assert (Hsep : String.length
                   ("+-" ++ join "-+-"
                      (map (fun largeur =>
                              string_of_list_ascii (repeat "-"%char largeur))
                           ws) ++ "-+")
                 = largeur_tableau ws).
  { rewrite !longueur_append, longueur_join, length_map, map_map.
    rewrite (map_ext _ (fun w => w)) by (intros w; apply longueur_repeat).
    rewrite map_id. unfold largeur_tableau. simpl. lia. }
  split; [|split; [exact Hh|exact Hl]].
  repeat constructor; try exact Hsep.
  - rewrite !longueur_append. simpl. lia.
  - apply Forall_app. split.
    + apply Forall_map. eapply Forall_impl; [|exact Hlf].
      intros s Hs. simpl in Hs. rewrite !longueur_append. simpl. lia.
    + repeat constructor. exact Hsep.
Qed.

(** X16.  When every row has as many cells as there are headers,
    [afficher_tableau] prints the separator, the headers, the separator,
    one line for each row and the separator again, and all these lines
    have the same length: four characters, the widths of the columns and
    three characters between two columns.  No header and no cell is
    longer than the width of its column. *)
Theorem afficher_tableau_rectangulaire lignes en_tetes :
  Forall (fun ligne => List.length ligne = List.length en_tetes) lignes ->
  exists sortie ws,
    afficher_tableau lignes en_tetes = Some sortie
    /\ List.length ws = List.length en_tetes
    /\ List.length sortie = 4 + List.length lignes
    /\ Forall (fun s => String.length s = largeur_tableau ws) sortie
    /\ Forall2 (fun w c => String.length c <= w) ws en_tetes
    /\ (forall ligne, In ligne lignes ->
                      Forall2 (fun w c => String.length c <= w) ws ligne).
Proof.
  exact (tableau_rectangulaire lignes en_tetes).
Qed.


End Tableau.

Lemma afficher_tableau_rectangulaire_temoin :
  Forall (fun ligne => List.length ligne = List.length en_tetes_exemple)
         rangees_exemple
  /\ exists sortie ws,
       afficher_tableau rangees_exemple en_tetes_exemple = Some sortie
       /\ List.length ws = List.length en_tetes_exemple
       /\ List.length sortie = (4 + List.length rangees_exemple)%nat
       /\ Forall (fun s => String.length s = largeur_tableau ws) sortie
       /\ Forall2 (fun w c => (String.length c <= w)%nat) ws
                  en_tetes_exemple
       /\ (forall ligne, In ligne rangees_exemple ->
              Forall2 (fun w c => (String.length c <= w)%nat) ws ligne).
Proof.
  assert (H : Forall (fun ligne => List.length ligne
                                   = List.length en_tetes_exemple)
                     rangees_exemple) by (repeat constructor).
  split; [exact H|].
  apply (afficher_tableau_rectangulaire rangees_exemple en_tetes_exemple H).
Defined.


(** ** The history and the balance on the console *)

Section Affichage.

Implicit Types (nom : string) (f : fichiers).

Lemma ligne_tableau_cinq (t : ligne_transaction) r :
  ligne_tableau t = Some r -> List.length r = 5%nat.
Proof.
  unfold ligne_tableau.
  destruct (formater_argent (montant t)); [|discriminate].
  destruct (formater_argent (frais t)); [|discriminate].
  now intros [= <-].
Qed.

(** X18.  The rows that [consulter_transactions] builds have five cells
    each, so that printing them under five headers, as the function does,
    never raises and gives a table whose lines all have the same
    length. *)
Theorem historique_rectangulaire nom f rs (en_tetes : list string) :
  consulter_transactions nom f = Some rs ->
  List.length en_tetes = 5%nat ->
  exists sortie ws,
    afficher_tableau rs en_tetes = Some sortie
    /\ List.length ws = 5%nat
    /\ List.length sortie = (4 + List.length rs)%nat
    /\ Forall (fun s => String.length s = largeur_tableau ws) sortie.
Proof.
  intros Hrs Hlen. unfold consulter_transactions in Hrs.
  rewrite consulter_boucle_rangees in Hrs.
  destruct (rangees (filter (concerne nom) (FICHIER_TRANSACTIONS f)))
    as [rs'|] eqn:E; [|discriminate].
  injection Hrs as <-. simpl. apply rangees_Forall2 in E.
  assert (H5 : Forall (fun ligne => List.length ligne
                                    = List.length en_tetes) rs').
  { rewrite Hlen. clear -E.
    induction E as [|t r ts rs Hr _ IH]; constructor; [|exact IH].
    now apply ligne_tableau_cinq in Hr. }
  destruct (tableau_rectangulaire rs' en_tetes H5)
    as (sortie & ws & Hs & Hws & Hn & Hall & _).
  exists sortie, ws. rewrite <- Hlen. auto.
Qed.

(** X19.  For a name that has no line in the accounts file the balance
    read is zero and [consulter_solde] prints a balance of zero dollars,
    as it does for an account that holds nothing. *)
Theorem solde_d_un_inconnu nom f :
  utilisateur_existe nom f = false ->
  recuperer_solde nom f = 0
  /\ consulter_solde nom f = Some ("Solde actuel de " ++ nom ++ " : 0 $").
Proof.
  intros Habs. unfold consulter_solde, recuperer_solde.
  unfold utilisateur_existe in Habs.
  rewrite solde_absent by exact Habs. split; reflexivity.
Qed.

End Affichage.

Lemma historique_rectangulaire_temoin :
  consulter_transactions "alice" alice_et_bob
  = Some [["2024-03-01 09:00:00"; "ift-1004-union"; "alice";
           "1,000 $"; "0 $"]]
  /\ List.length ["Date/Heure"; "De"; "Destinataire"; "Montant"; "Frais"]
     = 5%nat
  /\ exists sortie ws,
       afficher_tableau
         [["2024-03-01 09:00:00"; "ift-1004-union"; "alice";
           "1,000 $"; "0 $"]]
         ["Date/Heure"; "De"; "Destinataire"; "Montant"; "Frais"]
       = Some sortie
       /\ List.length ws = 5%nat
       /\ List.length sortie
          = (4 + List.length
                   [["2024-03-01 09:00:00"; "ift-1004-union"; "alice";
                     "1,000 $"; "0 $"]])%nat
       /\ Forall (fun s => String.length s = largeur_tableau ws) sortie.
Proof.
  split; [vm_compute; reflexivity|]. split; [reflexivity|].
  apply (historique_rectangulaire "alice" alice_et_bob);
    [vm_compute; reflexivity|reflexivity].
Defined.

Lemma solde_d_un_inconnu_temoin :
  utilisateur_existe "carol" alice_et_bob = false
  /\ recuperer_solde "carol" alice_et_bob = 0
  /\ consulter_solde "carol" alice_et_bob
     = Some ("Solde actuel de " ++ "carol" ++ " : 0 $").
Proof.
  split; [reflexivity|].
  apply (solde_d_un_inconnu "carol" alice_et_bob). reflexivity.
Defined.

(** ** Amounts in range *)

(** X20.  A float that passes the test [montant_dollars <= 0] and that
    [convertir_dollars_vers_centimes] converts gives a number of cents
    from zero upward and below [2^1024]. *)
Theorem convertir_dans_les_bornes (x : float) (c : Z) :
  fle0 x = false ->
  convertir_dollars_vers_centimes (Flottant x) = Some c ->
  0 <= c < 2 ^ 1024.
Proof.
  intros Hx Hc.
  pose proof (convertir_positif x c Hx Hc).
  pose proof (convertir_borne x c Hc). lia.
Qed.

Lemma convertir_dans_les_bornes_temoin :
  fle0 (fdiv (float_of_int 29) (float_of_int 100)) = false
  /\ convertir_dollars_vers_centimes
       (Flottant (fdiv (float_of_int 29) (float_of_int 100))) = Some 28
  /\ 0 <= 28 < 2 ^ 1024.
Proof.
  split; [reflexivity|]. split; [reflexivity|].
  apply (convertir_dans_les_bornes
           (fdiv (float_of_int 29) (float_of_int 100)) 28); reflexivity.
Defined.

(** X21.  [formater_argent] returns, without raising, on every number of
    cents below [2^1029] in absolute value; and so does
    [consulter_solde] on every balance in that range. *)
Theorem formater_argent_retourne (n : Z) (nom : string) (f : fichiers) :
  affichable n ->
  (exists s, formater_argent n = Some s)
  /\ (recuperer_solde nom f = n -> exists s, consulter_solde nom f = Some s).
Proof.
  intros Hn. destruct (formater_argent_defini n Hn) as [s Hs].
  split; [eauto|]. intros E. unfold consulter_solde.
  rewrite E, Hs. eauto.
Qed.

Lemma formater_argent_retourne_temoin :
  affichable 100000
  /\ (exists s, formater_argent 100000 = Some s)
  /\ (recuperer_solde "alice" alice_et_bob = 100000 ->
      exists s, consulter_solde "alice" alice_et_bob = Some s).
Proof.
  assert (H : affichable 100000).
  { unfold affichable.
    assert (2 ^ 17 <= 2 ^ 1029) by (apply Z.pow_le_mono_r; lia).
    change (2 ^ 17) with 131072 in *. lia. }
  split; [exact H|].
  apply (formater_argent_retourne 100000 "alice" alice_et_bob H).
Defined.


Lemma transfert_destinataire_absent_temoin :
  String.eqb "bob" "alice" = false
  /\ fle0 (float_of_int 1) = false
  /\ convertir_dollars_vers_centimes (Flottant (float_of_int 1)) = Some 100
  /\ 100 + calculer_frais 100 <= recuperer_solde "alice" alice_seule
  /\ utilisateur_existe "bob" alice_seule = false
  /\ exists f',
       envoyer_argent "alice" "bob" (float_of_int 1) "2024-03-01 10:00:00"
         alice_seule = Some (true, f')
       /\ utilisateur_existe "bob" f' = false
       /\ FICHIER_UTILISATEURS f'
          = map (ligne_ajustee "alice" (- 100 - calculer_frais 100))
              (FICHIER_UTILISATEURS alice_seule).
Proof.
  split; [reflexivity|]. split; [reflexivity|]. split; [reflexivity|].
  split; [vm_compute; discriminate|]. split; [reflexivity|].
  apply (transfert_destinataire_absent "alice" "bob" (float_of_int 1)
           "2024-03-01 10:00:00" alice_seule 100);
    try reflexivity.
  vm_compute; discriminate.
Defined.
